(** * The inference form of [src/pages/Index.tsx]

    A shallow embedding of the page's form schema ([formSchema]) and of its
    submit handler ([onSubmit]), with the theorems that relate them to the
    written specification of the page.

    Conventions.
    - A JavaScript string is a [string]: one [ascii] per code unit, so the
      model covers the strings whose code units are below 256, and
      [String.length] is the [.length] of the source.
    - React state setters, toasts and the network call are recorded, in
      program order, in a log of [event]s; the state on screen is obtained by
      replaying the log ([replay]).
    - What the browser supplies (the settlement of each awaited promise, the
      text of the engine's [TypeError]s, the printing of numbers) is an
      explicit parameter of the model. *)

From Stdlib Require Import String Ascii List Bool Arith NArith ZArith Lia.
From Stdlib Require Import Strings.Byte.
From Stdlib Require Import Numbers.DecimalString.
Import ListNotations.
Open Scope list_scope.
Open Scope string_scope.

(** ** Strings *)

Module Str.

(** The white space and line terminators of ECMAScript that fit in one
    code unit below 256: TAB, LF, VT, FF, CR, SP and NBSP. *)
Definition is_space (c : ascii) : bool :=
  match N_of_ascii c with
  | 9%N | 10%N | 11%N | 12%N | 13%N | 32%N | 160%N => true
  | _ => false
  end.

Fixpoint trimStart (s : string) : string :=
  match s with
  | EmptyString => EmptyString
  | String c rest => if is_space c then trimStart rest else s
  end.

Fixpoint trimEnd (s : string) : string :=
  match s with
  | EmptyString => EmptyString
  | String c rest =>
      match trimEnd rest with
      | EmptyString => if is_space c then EmptyString else String c EmptyString
      | kept => String c kept
      end
  end.

(** [String.prototype.trim]. *)
Definition trim (s : string) : string := trimEnd (trimStart s).

(** [String.prototype.repeat] for a one-character string. *)
Fixpoint replicate (n : nat) (c : ascii) : string :=
  match n with
  | O => EmptyString
  | S k => String c (replicate k c)
  end.

Definition LF : string := String (ascii_of_nat 10) EmptyString.

(** The double quote, as a one-character string. *)
Definition DQ : string := String (ascii_of_nat 34) EmptyString.

(** [Array.prototype.join]. *)
Fixpoint join (sep : string) (parts : list string) : string :=
  match parts with
  | [] => EmptyString
  | [p] => p
  | p :: rest => p ++ sep ++ join sep rest
  end.

Definition is_empty (s : string) : bool :=
  match s with EmptyString => true | _ => false end.

(** The decimal text of a non-negative integer, as a template literal
    prints it. *)
Definition of_N (n : N) : string := NilZero.string_of_uint (N.to_uint n).

End Str.

(** ** The form schema (lines 15-20) *)

Inductive Mode := text | image.

(** [z.infer<typeof formSchema>]; the same shape holds the raw values of the
    form before validation. *)
Record FormData := mkFormData {
  mode : Mode;
  prompt : string;
  system : string;
  chainedMode : bool
}.

Module Zod.

(** The checks of a [z.string()] schema, in the order in which they were
    chained. [ZodString] runs them in that order over one mutable input:
    [trim] replaces the input, [min] and [max] compare its length and add
    an issue without stopping. *)
Inductive check :=
| trim
| min (value : nat) (message : string)
| max (value : nat) (message : string).

Fixpoint run (checks : list check) (input : string) (issues : list string)
  : string * list string :=
  match checks with
  | [] => (input, issues)
  | trim :: rest => run rest (Str.trim input) issues
  | min value message :: rest =>
      run rest input
        (if Nat.ltb (String.length input) value then (issues ++ [message])%list else issues)
  | max value message :: rest =>
      run rest input
        (if Nat.ltb value (String.length input) then (issues ++ [message])%list else issues)
  end.

(** The parsed value and the issues raised, oldest first. *)
Definition parse (checks : list check) (input : string) : string * list string :=
  run checks input [].

End Zod.

Definition promptSchema : list Zod.check :=
  [Zod.trim; Zod.min 1 "Prompt is required";
   Zod.max 2000 "Prompt must be less than 2000 characters"].

Definition systemSchema : list Zod.check :=
  [Zod.trim; Zod.max 500 "System message must be less than 500 characters"].

(** [form.formState.errors]: the resolver keeps the first issue of each
    field. [mode] and [chainedMode] cannot fail at their types. *)
Record FieldErrors := mkFieldErrors {
  prompt_error : option string;
  system_error : option string
}.

(** [zodResolver(formSchema)]: either the errors, or the parsed (trimmed)
    values. *)
Definition formSchema (raw : FormData) : FieldErrors + FormData :=
  let (p, p_issues) := Zod.parse promptSchema (prompt raw) in
  let (s, s_issues) := Zod.parse systemSchema (system raw) in
  match p_issues, s_issues with
  | [], [] => inr (mkFormData (mode raw) p s (chainedMode raw))
  | _, _ => inl (mkFieldErrors (hd_error p_issues) (hd_error s_issues))
  end.

(** [form.handleSubmit(onSubmit)]: the handler receives the parsed values,
    and only when the schema accepts them. *)
Definition handleSubmit {R : Type} (onValid : FormData -> R) (raw : FormData)
  : FieldErrors + R :=
  match formSchema raw with
  | inl errors => inl errors
  | inr data => inr (onValid data)
  end.

(** ** What the browser supplies *)

(** JavaScript numbers are IEEE doubles; the page observes a number of a
    payload in two ways only, and both are taken from the host, together with
    the wording of the two [TypeError]s the handler can provoke. *)
Class Host := {
  number : Type;
  (** [ToBoolean]: false on [+0], [-0] and [NaN]. *)
  number_truthy : number -> bool;
  (** How [JSON.stringify] prints the number. *)
  number_json : number -> string;
  (** Message of the [TypeError] of reading property [key] of [null]. *)
  null_property_message : string -> string;
  (** Message of the [TypeError] of calling [result.key.trim] when that
      property is not a function. *)
  not_a_function_message : string -> string
}.

(** A value that is thrown or that rejects a promise: an [Error] (or a
    subclass, such as [TypeError]) with its message, or anything else. *)
Inductive thrown :=
| Error (message : string)
| NonError.

(** The fate of a promise that the handler awaits. *)
Inductive promise (A : Type) :=
| Pending
| Rejected (reason : thrown)
| Fulfilled (result : A).
Arguments Pending {A}.
Arguments Rejected {A} reason.
Arguments Fulfilled {A} result.

(** The [File] chosen in the image picker. *)
Record File := mkFile {
  file_name : string;
  file_bytes : list byte
}.

(** ** JSON *)

Module JSON.
Section WithHost.
Context {host : Host}.

(** What [res.json()] can produce. [fields] lists the own properties of an
    object in property order; its keys are distinct. *)
#[warnings="-register-all"]
Inductive value :=
| JNull
| JBool (b : bool)
| JNumber (n : number)
| JString (s : string)
| JArray (items : list value)
| JObject (fields : list (string * value)).

Definition hex_digit (n : N) : string :=
  String.substring (N.to_nat n) 1 "0123456789abcdef".

(** One code unit of [QuoteJSONString]. *)
Definition quote_char (c : ascii) : string :=
  match N_of_ascii c with
  | 8%N => "\b"
  | 9%N => "\t"
  | 10%N => "\n"
  | 12%N => "\f"
  | 13%N => "\r"
  | 34%N => "\" ++ Str.DQ
  | 92%N => "\\"
  | n => if (n <? 32)%N
         then "\u00" ++ hex_digit (n / 16) ++ hex_digit (n mod 16)
         else String c EmptyString
  end.

Fixpoint quote_chars (s : string) : string :=
  match s with
  | EmptyString => EmptyString
  | String c rest => quote_char c ++ quote_chars rest
  end.

(** [QuoteJSONString]. *)
Definition quote (s : string) : string := Str.DQ ++ quote_chars s ++ Str.DQ.

(** [SerializeJSONArray] and [SerializeJSONObject] once the members are
    printed: [stepback] is the indentation outside the brackets, [indent]
    the one inside. *)
Definition wrap (opening closing gap stepback indent : string)
                (partial : list string) : string :=
  match partial with
  | [] => opening ++ closing
  | _ =>
      if Str.is_empty gap
      then opening ++ Str.join "," partial ++ closing
      else opening ++ Str.LF ++ indent
           ++ Str.join ("," ++ Str.LF ++ indent) partial
           ++ Str.LF ++ stepback ++ closing
  end.

(** [SerializeJSONProperty] on a parsed value. *)
Fixpoint serialize (gap indent : string) (v : value) : string :=
  match v with
  | JNull => "null"
  | JBool true => "true"
  | JBool false => "false"
  | JNumber n => number_json n
  | JString s => quote s
  | JArray items =>
      wrap "[" "]" gap indent (indent ++ gap)
        (map (serialize gap (indent ++ gap)) items)
  | JObject fields =>
      wrap "{" "}" gap indent (indent ++ gap)
        (map (fun member =>
                match member with
                | (key, x) =>
                    quote key ++ ":" ++ (if Str.is_empty gap then "" else " ")
                    ++ serialize gap (indent ++ gap) x
                end) fields)
  end.

(** [JSON.stringify(v, null, space)] for [space] between 0 and 10. *)
Definition stringify (v : value) (space : nat) : string :=
  serialize (Str.replicate space " ") "" v.

(** An own property of an object, [None] for [undefined]. *)
Fixpoint lookup (key : string) (fields : list (string * value)) : option value :=
  match fields with
  | [] => None
  | (k, x) :: rest => if String.eqb k key then Some x else lookup key rest
  end.

(** [v[key]] for a [v] other than [null] and a [key] that no prototype
    defines: only an object has it, as an own property. *)
Definition field (v : value) (key : string) : option value :=
  match v with
  | JObject fields => lookup key fields
  | _ => None
  end.

(** [ToBoolean] of a property that was read. *)
Definition truthy (x : option value) : bool :=
  match x with
  | None => false
  | Some JNull => false
  | Some (JBool b) => b
  | Some (JNumber n) => number_truthy n
  | Some (JString s) => negb (Str.is_empty s)
  | Some (JArray _) => true
  | Some (JObject _) => true
  end.

End WithHost.
End JSON.
Export JSON.

(** ** Requests and responses *)

Inductive FormEntry :=
| EntryString (s : string)
| EntryFile (f : File).

(** [BodyInit], as the handler builds it: the text of [JSON.stringify], or a
    [FormData] with its entries in the order of the [append] calls. *)
Inductive Body :=
| BodyText (s : string)
| BodyFormData (entries : list (string * FormEntry)).

(** [formData.append(name, v)]. *)
Definition formData_append (name : string) (v : FormEntry)
                           (entries : list (string * FormEntry))
  : list (string * FormEntry) :=
  (entries ++ [(name, v)])%list.

(** The arguments of [fetch]. [headers] is a [Record<string, string>] in
    property order. *)
Record Request := mkRequest {
  url : string;
  method : string;
  headers : list (string * string);
  body : Body
}.

(** [headers[key] = v] on a [Record<string, string>]. *)
Fixpoint assign (key v : string) (record : list (string * string))
  : list (string * string) :=
  match record with
  | [] => [(key, v)]
  | (k, old) :: rest =>
      if String.eqb k key then (k, v) :: rest else (k, old) :: assign key v rest
  end.

Module Response.
Section WithHost.
Context {host : Host}.

(** A [Response], as far as the handler looks at it: its status and how
    the two body readers settle. *)
Record t := mk {
  status : N;
  text : promise string;
  json : promise JSON.value
}.

(** [res.ok]: the status is in the range 200-299. *)
Definition ok (res : t) : bool :=
  ((200 <=? status res) && (status res <=? 299))%N.

End WithHost.
End Response.

(** ** Effects of the handler *)

(** What the handler does to the world, in program order. *)
Inductive event :=
| SetIsLoading (b : bool)
| SetResponse (s : string)
| ToastError (message : string)
| ToastSuccess (message : string)
| Fetch (req : Request).

(** How a block of statements ends. *)
Inductive completion (A : Type) :=
| Normal (a : A)
| Returned
| Threw (e : thrown)
| Suspended.
Arguments Normal {A} a.
Arguments Returned {A}.
Arguments Threw {A} e.
Arguments Suspended {A}.

(** A block of statements: the events it performs and how it ends.
    [Suspended] is an [await] on a promise that never settles: nothing after
    it runs, not even a [finally] block. *)
Definition M (A : Type) : Type := list event * completion A.

Definition ret {A} (a : A) : M A := ([], Normal a).

Definition bind {A B} (m : M A) (k : A -> M B) : M B :=
  match m with
  | (log, Normal a) => let (log', c) := k a in ((log ++ log')%list, c)
  | (log, Returned) => (log, Returned)
  | (log, Threw e) => (log, Threw e)
  | (log, Suspended) => (log, Suspended)
  end.

Declare Scope js_scope.
Delimit Scope js_scope with js.
Notation "x <- m ;; k" := (bind m (fun x => k))
  (at level 61, m at next level, right associativity) : js_scope.
Notation "m ;; k" := (bind m (fun _ => k))
  (at level 61, right associativity) : js_scope.
Open Scope js_scope.

Definition emit (e : event) : M unit := ([e], Normal tt).
Definition throw {A} (e : thrown) : M A := ([], Threw e).
Definition return_ {A} : M A := ([], Returned).

Definition await {A} (p : promise A) : M A :=
  match p with
  | Pending => ([], Suspended)
  | Rejected reason => ([], Threw reason)
  | Fulfilled result => ([], Normal result)
  end.

(** [try { block } catch (error) { handler error }]. *)
Definition try_catch {A} (block : M A) (handler : thrown -> M A) : M A :=
  match block with
  | (log, Threw e) => let (log', c) := handler e in ((log ++ log')%list, c)
  | _ => block
  end.

(** [try { block } finally { final }]: [final] runs however [block] ends,
    and the completion of [block] stands unless [final] ends abruptly. *)
Definition try_finally {A} (block : M A) (final : M unit) : M A :=
  match block with
  | (log, Suspended) => (log, Suspended)
  | (log, c) =>
      let (log', c') := final in
      ((log ++ log')%list,
       match c' with
       | Normal _ => c
       | Returned => Returned
       | Threw e => Threw e
       | Suspended => Suspended
       end)
  end.

Definition setIsLoading (b : bool) : M unit := emit (SetIsLoading b).
Definition setResponse (s : string) : M unit := emit (SetResponse s).

Module toast.
Definition error (message : string) : M unit := emit (ToastError message).
Definition success (message : string) : M unit := emit (ToastSuccess message).
End toast.

(** ** The page's state *)

(** The two pieces of [useState] that the handler writes. *)
Record UI := mkUI {
  response : string;
  isLoading : bool
}.

Definition apply (ui : UI) (e : event) : UI :=
  match e with
  | SetIsLoading b => mkUI (response ui) b
  | SetResponse s => mkUI s (isLoading ui)
  | _ => ui
  end.

(** The state once React has applied the updates of a log, in order. *)
Definition replay (ui : UI) (log : list event) : UI := fold_left apply log ui.

(** The requests of a log, oldest first. *)
Fixpoint requests (log : list event) : list Request :=
  match log with
  | [] => []
  | Fetch req :: rest => req :: requests rest
  | _ :: rest => requests rest
  end.

(** The notifications of a log, oldest first: [true] for [toast.success]. *)
Fixpoint notifications (log : list event) : list (bool * string) :=
  match log with
  | [] => []
  | ToastSuccess message :: rest => (true, message) :: notifications rest
  | ToastError message :: rest => (false, message) :: notifications rest
  | _ :: rest => notifications rest
  end.

(** ** The submit handler (lines 57-114) *)

Section Handler.
Context {host : Host}.

(** The component state and the network that one call sees. *)
Variable selectedImage : option File.
Variable fetch : Request -> promise Response.t.

(** [result[key]] on the parsed payload; [key] is one of the two names the
    handler reads, which no prototype defines. *)
Definition get (result : JSON.value) (key : string) : M (option JSON.value) :=
  match result with
  | JNull => throw (Error (null_property_message key))
  | _ => ret (JSON.field result key)
  end.

(** [result[key].trim()], which the handler calls on a truthy property
    only: a string has [trim], no other truthy JSON value does. *)
Definition get_trim (result : JSON.value) (key : string) : M string :=
  x <- get result key ;;
  match x with
  | Some (JString s) => ret (Str.trim s)
  | _ => throw (Error (not_a_function_message key))
  end.

(** The locals that the two branches of lines 66-83 leave behind. *)
Record prepared := mkPrepared {
  fetchUrl : string;
  requestBody : Body;
  headers_ : list (string * string)
}.

(** Lines 62-83. *)
Definition prepare (data : FormData) : M prepared :=
  let headers := [("accept", "application/json")] in
  match mode data with
  | image =>
      match selectedImage with
      | None =>
          toast.error "Please select an image before submitting" ;;
          setIsLoading false ;;
          return_
      | Some file =>
          let formData :=
            formData_append "image" (EntryFile file)
              (formData_append "prompt" (EntryString (prompt data)) []) in
          ret (mkPrepared
                 (if chainedMode data then "/predict/chained_image"
                  else "/predict/image")
                 (BodyFormData formData)
                 headers)
      end
  | text =>
      ret (mkPrepared
             (if chainedMode data then "/predict/chained_text"
              else "/predict/text")
             (BodyText
                (JSON.stringify
                   (JObject [("prompt", JString (prompt data));
                             ("system", JString (system data))]) 0))
             (assign "Content-Type" "application/json" headers))
  end.

(** Lines 85-89: the arguments of the call to [fetch]. *)
Definition request (data : FormData) (p : prepared) : Request :=
  mkRequest (fetchUrl p) "POST"
    (match mode data with
     | image => [("accept", "application/json")]
     | text => headers_ p
     end)
    (requestBody p).

(** Lines 98-104: what is shown for a parsed payload. *)
Definition render (result : JSON.value) : M unit :=
  final_response <- get result "final_response" ;;
  if JSON.truthy final_response
  then
    trimmed <- get_trim result "final_response" ;;
    setResponse trimmed
  else
    response <- get result "response" ;;
    if JSON.truthy response
    then
      trimmed <- get_trim result "response" ;;
      setResponse trimmed
    else
      setResponse (JSON.stringify result 2).

(** Lines 85-106: the body of the [try] once the request is prepared. *)
Definition exchange (data : FormData) (p : prepared) : M unit :=
  emit (Fetch (request data p)) ;;
  res <- await (fetch (request data p)) ;;
  (if negb (Response.ok res)
   then
     errorText <- await (Response.text res) ;;
     throw (Error ("HTTP error! status: " ++ Str.of_N (Response.status res)
                   ++ ", message: " ++ errorText))
   else ret tt) ;;
  result <- await (Response.json res) ;;
  render result ;;
  toast.success "Response received successfully".

(** Lines 107-110. *)
Definition recover (error : thrown) : M unit :=
  let errorMessage :=
    match error with
    | Error message => message
    | NonError => "An unknown error occurred"
    end in
  setResponse ("Error: " ++ errorMessage) ;;
  toast.error "Failed to get response".

Definition onSubmit (data : FormData) : M unit :=
  setIsLoading true ;;
  setResponse "" ;;
  try_finally
    (try_catch
       (p <- prepare data ;; exchange data p)
       recover)
    (setIsLoading false).

End Handler.

(** ** A concrete host *)

(** A host whose numbers are the integers, with the wording of V8's
    [TypeError]s; it serves to run the model on concrete payloads. *)
Definition V8 : Host := {|
  number := Z;
  number_truthy := fun z => negb (z =? 0)%Z;
  number_json := fun z => NilZero.string_of_int (Z.to_int z);
  null_property_message := fun key =>
    "Cannot read properties of null (reading '" ++ key ++ "')";
  not_a_function_message := fun key =>
    "result." ++ key ++ ".trim is not a function"
|}.

(** A server that answers every request with the same response. *)
Definition always {host : Host} (res : Response.t) : Request -> promise Response.t :=
  fun _ => Fulfilled res.

(** A response with status [status] whose body is the text [raw] and parses
    to [payload]. *)
Definition answer {host : Host} (status : N) (raw : string) (payload : JSON.value)
  : Response.t :=
  Response.mk status (Fulfilled raw) (Fulfilled payload).

(** ** The outcomes of a call *)

(** The four ways a call of the handler that finishes can go, and the one in
    which it waits for ever, each with the whole log of the call. *)
Inductive outcome : M unit -> Prop :=
| no_image :
    outcome
      ([SetIsLoading true; SetResponse "";
        ToastError "Please select an image before submitting";
        SetIsLoading false; SetIsLoading false], Returned)
| waiting req :
    outcome ([SetIsLoading true; SetResponse ""; Fetch req], Suspended)
| failure req shown :
    outcome
      ([SetIsLoading true; SetResponse ""; Fetch req;
        SetResponse shown; ToastError "Failed to get response";
        SetIsLoading false], Normal tt)
| success req shown :
    outcome
      ([SetIsLoading true; SetResponse ""; Fetch req;
        SetResponse shown; ToastSuccess "Response received successfully";
        SetIsLoading false], Normal tt).

(** The call came to an end: it is not parked on a promise. *)
Definition finished {A} (m : M A) : bool :=
  match snd m with
  | Suspended => false
  | _ => true
  end.

(** The promise settles. *)
Definition settles {A} (p : promise A) : bool :=
  match p with
  | Pending => false
  | _ => true
  end.

(** Every promise that a call may await settles. *)
Definition responsive {host : Host} (fetch : Request -> promise Response.t) : Prop :=
  forall req,
    match fetch req with
    | Pending => False
    | Rejected _ => True
    | Fulfilled res =>
        settles (Response.text res) = true /\ settles (Response.json res) = true
    end.

(** ** The display rule as the specification words it *)

(** The specification chooses by the presence of a field: [final_response]
    trimmed if the payload has it, else [response] trimmed if the payload has
    it, else the whole payload printed with two spaces. It speaks of string
    fields only; [None] where it says nothing. *)
Definition display_by_presence {host : Host} (payload : JSON.value) : option string :=
  match JSON.field payload "final_response" with
  | Some (JString s) => Some (Str.trim s)
  | Some _ => None
  | None =>
      match JSON.field payload "response" with
      | Some (JString s) => Some (Str.trim s)
      | Some _ => None
      | None => Some (JSON.stringify payload 2)
      end
  end.

(** ** Sample inputs *)

Module Sample.

Definition scan : File := mkFile "scan.png" [x89; x50; x4e; x47].

Definition hello : FormData := mkFormData text "Hello" "Sys" false.

Definition picture : FormData := mkFormData image "Describe" "Sys" true.

(** 2000 letters and a trailing blank: 2001 code units. *)
Definition padded : FormData :=
  mkFormData text (Str.replicate 2000 "a" ++ " ") "Sys" false.

Definition blank : FormData := mkFormData text "   " "Sys" false.

(** 2001 letters. *)
Definition wordy : FormData :=
  mkFormData text (Str.replicate 2001 "a") "Sys" false.

(** [picture] with another system message. *)
Definition picture' : FormData := mkFormData image "Describe" "Other" true.

(** The request that [hello] gives rise to. *)
Definition hello_request {host : Host} : Request :=
  mkRequest "/predict/text" "POST"
    [("accept", "application/json"); ("Content-Type", "application/json")]
    (BodyText
       (JSON.stringify
          (JObject [("prompt", JString "Hello"); ("system", JString "Sys")])
          0)).

Definition diagnosis {host : Host} : JSON.value :=
  JObject [("final_response", JString "Diagnosis: X")].

(** A payload whose [final_response] is present and empty. *)
Definition fallback {host : Host} : JSON.value :=
  JObject [("final_response", JString ""); ("response", JString "B")].

Definition other {host : Host} : JSON.value :=
  JObject [("answer", JString "B")].

Definition idle : UI := mkUI "an earlier answer" false.

End Sample.

(** ** The rest of the component *)

(** [defaultValues] of [useForm] (lines 32-37). *)
Definition defaultValues : FormData :=
  mkFormData text "" "You are a helpful medical assistant." false.

(** [formState.errors] of a form that passed validation. *)
Definition no_errors : FieldErrors := mkFieldErrors None None.

(** A click on Submit, [form.handleSubmit(onSubmit)] of line 139, as the page
    sees it once the call has gone as far as it can: the errors of the form
    and the two pieces of state that the handler writes. A form that fails
    validation keeps the state and gets the errors; a form that passes has
    no errors and the state of the handler's log. *)
Definition submit {host : Host} (selectedImage : option File)
                  (fetch : Request -> promise Response.t)
                  (raw : FormData) (ui : UI) : FieldErrors * UI :=
  match handleSubmit (onSubmit selectedImage fetch) raw with
  | inl errors => (errors, ui)
  | inr run => (no_errors, replay ui (fst run))
  end.

(** *** The image picker (lines 27-28 and 42-55) *)

Module Picker.
Section WithReader.

(** [reader.result] of [readAsDataURL(file)], which the browser computes. *)
Variable dataURL : File -> string.

(** The two pieces of [useState] of the picker, and the files whose
    [FileReader] has not fired [onload] yet, oldest first. *)
Record t := mk {
  selectedImage : option File;
  imagePreview : string;
  reading : list File
}.

(** Lines 27-28. *)
Definition initial : t := mk None "" [].

(** [e.target.files?.[0]]. *)
Definition first (files : option (list File)) : option File :=
  match files with
  | Some (file :: _) => Some file
  | _ => None
  end.

(** Lines 42-55: with a file, the selection is replaced and a read is
    started, the preview being left to its [onload]; without one, selection
    and preview are cleared. A read already started is never aborted. *)
Definition handleImageChange (files : option (list File)) (st : t) : t :=
  match first files with
  | Some file => mk (Some file) (imagePreview st) (reading st ++ [file])%list
  | None => mk None "" (reading st)
  end.

Fixpoint remove_nth {A} (i : nat) (l : list A) : list A :=
  match l, i with
  | [], _ => []
  | _ :: rest, O => rest
  | x :: rest, S j => x :: remove_nth j rest
  end.

(** Lines 47-49: the [onload] of the read in flight at position [i]. *)
Definition onload (i : nat) (st : t) : option t :=
  match nth_error (reading st) i with
  | Some file =>
      Some (mk (selectedImage st) (dataURL file) (remove_nth i (reading st)))
  | None => None
  end.

(** What can happen to the picker: the user changes the file input, or the
    read at a position in flight completes. *)
Inductive action :=
| Change (files : option (list File))
| Load (i : nat).

Definition step (st : t) (a : action) : option t :=
  match a with
  | Change files => Some (handleImageChange files st)
  | Load i => onload i st
  end.

Fixpoint run (st : t) (actions : list action) : option t :=
  match actions with
  | [] => Some st
  | a :: rest =>
      match step st a with
      | Some st' => run st' rest
      | None => None
      end
  end.

(** A change of the file input whose read, if any, completes before anything
    else happens. *)
Definition pick (files : option (list File)) : list action :=
  match first files with
  | Some _ => [Change files; Load 0]
  | None => [Change files]
  end.

(** The preview is the one of the selection. *)
Definition in_step (st : t) : Prop :=
  imagePreview st =
    match selectedImage st with
    | Some file => dataURL file
    | None => ""
    end.

End WithReader.
End Picker.

(** *** What is on screen (lines 116-276) *)

(** The parts of the page whose presence or content depends on the state. *)
Record View := mkView {
  (** Lines 172-174. *)
  prompt_message : option string;
  (** Line 177. *)
  system_field : bool;
  (** Lines 187-189, inside the block of line 177. *)
  system_message : option string;
  (** Line 193. *)
  image_picker : bool;
  (** Lines 217-225, inside the block of line 193: the [src] of the image. *)
  preview : option string;
  (** Line 243. *)
  submit_disabled : bool;
  (** Lines 246-253. *)
  submit_label : string;
  (** Lines 259-273: the text of the response card. *)
  response_card : option string
}.

(** [s && <element s />]. *)
Definition when_nonempty (s : string) : option string :=
  if Str.is_empty s then None else Some s.

Definition view (watched : Mode) (errors : FieldErrors) (ui : UI)
                (imagePreview : string) : View :=
  mkView
    (prompt_error errors)
    (match watched with text => true | image => false end)
    (match watched with text => system_error errors | image => None end)
    (match watched with image => true | text => false end)
    (match watched with image => when_nonempty imagePreview | text => None end)
    (isLoading ui)
    (if isLoading ui then "Processing..." else "Submit")
    (when_nonempty (response ui)).

(** ** More sample inputs *)

Module Example.

Definition chest : File := mkFile "chest.png" [x89; x50].

Definition knee : File := mkFile "knee.png" [x4e; x47].

(** A reader that shows a file by its name. *)
Definition named (file : File) : string := "data:" ++ file_name file.

(** An image submission whose hidden system message has 501 letters. *)
Definition verbose : FormData :=
  mkFormData image "Describe" (Str.replicate 501 "a") false.

(** 3000 blanks. *)
Definition spaces : FormData :=
  mkFormData text (Str.replicate 3000 " ") "Sys" false.

(** Both fields out of bounds. *)
Definition both : FormData :=
  mkFormData text "" (Str.replicate 501 "a") false.

Definition padded_hello : FormData :=
  mkFormData text "  Hello " " Sys  " false.

(** A payload whose [final_response] is blank but not empty. *)
Definition hollow {host : Host} : JSON.value :=
  JObject [("final_response", JString "  ")].

(** A payload whose [final_response] is a number, beside a good
    [response]. *)
Definition numeric : JSON.value (host := V8) :=
  JObject [("final_response", JNumber (host := V8) 3%Z);
           ("response", JString "B")].

End Example.

(** * Properties *)

(** ** Validation *)

Section Validation.

Lemma parse_prompt_value p : fst (Zod.parse promptSchema p) = Str.trim p.
Proof. reflexivity. Qed.

(** The issues of a prompt, by the length of its trimmed form. *)
Lemma parse_prompt_issues p :
  snd (Zod.parse promptSchema p) =
    if Nat.ltb (String.length (Str.trim p)) 1
    then ["Prompt is required"]
    else if Nat.ltb 2000 (String.length (Str.trim p))
         then ["Prompt must be less than 2000 characters"]
         else [].
Proof.
  unfold Zod.parse, promptSchema.
  cbn [Zod.run snd].
  destruct (Nat.ltb_spec (String.length (Str.trim p)) 1) as [Hlt | Hge];
    destruct (Nat.ltb_spec 2000 (String.length (Str.trim p))) as [Hlong | Hshort];
    try reflexivity.
  lia.
Qed.

Lemma parse_prompt p :
  Zod.parse promptSchema p = (Str.trim p, snd (Zod.parse promptSchema p)).
Proof. reflexivity. Qed.

(** A prompt with an issue blocks the form, and its first issue is the
    error of the field. *)
Lemma formSchema_prompt_issue raw message rest :
  snd (Zod.parse promptSchema (prompt raw)) = message :: rest ->
  exists errors,
    formSchema raw = inl errors /\ prompt_error errors = Some message.
Proof.
  intros Hissues. unfold formSchema.
  rewrite parse_prompt, Hissues.
  destruct (Zod.parse systemSchema (system raw)) as [s s_issues].
  eexists. split; reflexivity.
Qed.

(** The form passes only if the prompt has no issue, and then the handler
    gets the trimmed prompt. *)
Lemma formSchema_accepts raw data :
  formSchema raw = inr data ->
  snd (Zod.parse promptSchema (prompt raw)) = [] /\
  prompt data = Str.trim (prompt raw) /\
  mode data = mode raw /\ chainedMode data = chainedMode raw.
Proof.
  unfold formSchema. rewrite parse_prompt.
  destruct (Zod.parse systemSchema (system raw)) as [s s_issues].
  destruct (snd (Zod.parse promptSchema (prompt raw))) as [| m ms];
    destruct s_issues as [| n ns]; intros H; inversion H; subst.
  repeat split.
Qed.

Lemma replicate_length n c : String.length (Str.replicate n c) = n.
Proof. induction n as [| n IH]; simpl; congruence. Qed.

Lemma append_assoc (a b c : string) : (a ++ b) ++ c = a ++ b ++ c.
Proof. induction a as [| x a IH]; simpl; congruence. Qed.

End Validation.

(** C5 (as amended). A prompt whose trimmed form is empty is rejected with
    the message "Prompt is required"; a prompt whose trimmed form is longer
    than 2000 characters is rejected with the length message; and the submit
    handler is invoked only for prompts whose trimmed length is between 1 and
    2000, on the trimmed prompt. *)
Theorem prompt_validation {R : Type} (onValid : FormData -> R) (raw : FormData) :
  (String.length (Str.trim (prompt raw)) = 0 ->
   exists errors,
     handleSubmit onValid raw = inl errors /\
     prompt_error errors = Some "Prompt is required") /\
  ((2000 < String.length (Str.trim (prompt raw)))%nat ->
   exists errors,
     handleSubmit onValid raw = inl errors /\
     prompt_error errors = Some "Prompt must be less than 2000 characters") /\
  (forall r,
     handleSubmit onValid raw = inr r ->
     (1 <= String.length (Str.trim (prompt raw)) <= 2000)%nat /\
     exists data, r = onValid data /\ prompt data = Str.trim (prompt raw)).
Proof.
  pose proof (parse_prompt_issues (prompt raw)) as Hissues.
  unfold handleSubmit.
  split; [| split].
  - intros Hempty. rewrite Hempty in Hissues. cbn in Hissues.
    destruct (formSchema_prompt_issue raw _ _ Hissues) as [errors [Hform Herr]].
    exists errors. rewrite Hform. split; [reflexivity | exact Herr].
  - intros Hlong.
    destruct (Nat.ltb_spec (String.length (Str.trim (prompt raw))) 1) as [H1 | H1];
      [lia |].
    destruct (Nat.ltb_spec 2000 (String.length (Str.trim (prompt raw)))) as [H2 | H2];
      [| lia].
    destruct (formSchema_prompt_issue raw _ _ Hissues) as [errors [Hform Herr]].
    exists errors. rewrite Hform. split; [reflexivity | exact Herr].
  - intros r Hr.
    destruct (formSchema raw) as [errors | data] eqn:Hform; [discriminate |].
    inversion Hr; subst r; clear Hr.
    destruct (formSchema_accepts raw data Hform) as [Hnone [Hprompt _]].
    rewrite Hnone in Hissues.
    destruct (Nat.ltb_spec (String.length (Str.trim (prompt raw))) 1) as [H1 | H1];
      [discriminate |].
    destruct (Nat.ltb_spec 2000 (String.length (Str.trim (prompt raw)))) as [H2 | H2];
      [discriminate |].
    split; [lia |]. exists data. split; [reflexivity | exact Hprompt].
Qed.

(** ** The handler *)

Section HandlerFacts.
Context {host : Host}.
Variable selectedImage : option File.
Variable fetch : Request -> promise Response.t.

(** Rendering a payload either shows one string or throws an [Error]. *)
Lemma render_cases result :
  (exists shown, render result = ([SetResponse shown], Normal tt)) \/
  (exists message, render result = ([], Threw (Error message))).
Proof.
  unfold render, get_trim, get.
  destruct result as [| b | n | s | items | fields];
    try (right; eexists; reflexivity);
    try (left; eexists; reflexivity).
  cbn [JSON.field].
  destruct (JSON.lookup "final_response" fields) as [[| b | n | s | items | fs] |];
    cbn.
  all: try (destruct (JSON.lookup "response" fields) as [[| b' | n' | s' | items' | fs'] |];
    cbn).
  all: repeat match goal with
       | |- context [if ?c then _ else _] => destruct c; cbn
       end.
  all: try (right; eexists; reflexivity);
    try (left; eexists; reflexivity).
Qed.

(** Preparing the request ends at once without an image, and otherwise
    performs nothing and yields the locals. *)
Lemma prepare_cases data :
  (mode data = image /\ selectedImage = None /\
   prepare selectedImage data =
     ([ToastError "Please select an image before submitting";
       SetIsLoading false], Returned)) \/
  (exists p,
     (mode data = image -> selectedImage <> None) /\
     prepare selectedImage data = ([], Normal p)).
Proof.
  unfold prepare.
  destruct (mode data) eqn:Hmode.
  - right. eexists. split; [discriminate | reflexivity].
  - destruct selectedImage as [file |] eqn:Himage.
    + right. eexists. split; [discriminate | reflexivity].
    + left. repeat split.
Qed.

Lemma prepare_text data :
  mode data = text ->
  prepare selectedImage data =
    ([], Normal
           (mkPrepared
              (if chainedMode data then "/predict/chained_text"
               else "/predict/text")
              (BodyText
                 (JSON.stringify
                    (JObject [("prompt", JString (prompt data));
                              ("system", JString (system data))]) 0))
              [("accept", "application/json");
               ("Content-Type", "application/json")])).
Proof. intros Hmode. unfold prepare. rewrite Hmode. reflexivity. Qed.

Lemma prepare_image data file :
  mode data = image ->
  selectedImage = Some file ->
  prepare selectedImage data =
    ([], Normal
           (mkPrepared
              (if chainedMode data then "/predict/chained_image"
               else "/predict/image")
              (BodyFormData [("prompt", EntryString (prompt data));
                             ("image", EntryFile file)])
              [("accept", "application/json")])).
Proof.
  intros Hmode Himage. unfold prepare. rewrite Hmode, Himage. reflexivity.
Qed.

(** The exchange of lines 85-106 when the server answers with a failure
    status and its body can be read. *)
Lemma exchange_http_error data p res errorText :
  fetch (request data p) = Fulfilled res ->
  Response.ok res = false ->
  Response.text res = Fulfilled errorText ->
  exchange fetch data p =
    ([Fetch (request data p)],
     Threw (Error ("HTTP error! status: " ++ Str.of_N (Response.status res)
                   ++ ", message: " ++ errorText))).
Proof.
  intros Hfetch Hok Htext. unfold exchange.
  rewrite Hfetch. cbn [bind emit await].
  rewrite Hok, Htext. reflexivity.
Qed.

(** The exchange when the server answers with a success status and a body
    that parses. *)
Lemma exchange_ok data p res payload :
  fetch (request data p) = Fulfilled res ->
  Response.ok res = true ->
  Response.json res = Fulfilled payload ->
  exchange fetch data p =
    (let (log, c) := render payload in
     match c with
     | Normal _ =>
         (Fetch (request data p) :: log
            ++ [ToastSuccess "Response received successfully"], Normal tt)%list
     | Returned => (Fetch (request data p) :: log, Returned)
     | Threw e => (Fetch (request data p) :: log, Threw e)
     | Suspended => (Fetch (request data p) :: log, Suspended)
     end).
Proof.
  intros Hfetch Hok Hjson. unfold exchange.
  rewrite Hfetch. cbn [bind emit await].
  rewrite Hok, Hjson. cbn -[render].
  destruct (render payload) as [log [[] | | e |]]; reflexivity.
Qed.

(** However the exchange goes, it logs the request first, and nothing
    after it unless it succeeds. *)
Lemma exchange_cases data p :
  exchange fetch data p = ([Fetch (request data p)], Suspended) \/
  (exists e, exchange fetch data p = ([Fetch (request data p)], Threw e)) \/
  (exists shown,
     exchange fetch data p =
       ([Fetch (request data p); SetResponse shown;
         ToastSuccess "Response received successfully"], Normal tt)).
Proof.
  destruct (fetch (request data p)) as [| reason | res] eqn:Hfetch.
  - left. unfold exchange. rewrite Hfetch. reflexivity.
  - right; left. exists reason. unfold exchange. rewrite Hfetch. reflexivity.
  - destruct (Response.ok res) eqn:Hok.
    + destruct (Response.json res) as [| reason | payload] eqn:Hjson.
      * left. unfold exchange. rewrite Hfetch. cbn [bind emit await].
        rewrite Hok, Hjson. reflexivity.
      * right; left. exists reason. unfold exchange.
        rewrite Hfetch. cbn [bind emit await].
        rewrite Hok, Hjson. reflexivity.
      * rewrite (exchange_ok data p res payload Hfetch Hok Hjson).
        destruct (render_cases payload) as [[shown Hr] | [message Hr]];
          rewrite Hr.
        -- right; right. exists shown. reflexivity.
        -- right; left. eexists. reflexivity.
    + destruct (Response.text res) as [| reason | errorText] eqn:Htext.
      * left. unfold exchange. rewrite Hfetch. cbn [bind emit await].
        rewrite Hok, Htext. reflexivity.
      * right; left. exists reason. unfold exchange.
        rewrite Hfetch. cbn [bind emit await].
        rewrite Hok, Htext. reflexivity.
      * right; left. eexists.
        apply (exchange_http_error data p res errorText Hfetch Hok Htext).
Qed.

(** The handler around a prepared request. *)
Lemma onSubmit_prepared data p :
  prepare selectedImage data = ([], Normal p) ->
  onSubmit selectedImage fetch data =
    (setIsLoading true ;;
     setResponse "" ;;
     try_finally (try_catch (exchange fetch data p) recover)
                 (setIsLoading false)).
Proof.
  intros Hprepare. unfold onSubmit. rewrite Hprepare.
  cbn [bind]. destruct (exchange fetch data p) as [log c]. reflexivity.
Qed.

Lemma onSubmit_no_image data :
  mode data = image ->
  selectedImage = None ->
  onSubmit selectedImage fetch data =
    ([SetIsLoading true; SetResponse "";
      ToastError "Please select an image before submitting";
      SetIsLoading false; SetIsLoading false], Returned).
Proof.
  intros Hmode Himage. unfold onSubmit, prepare.
  rewrite Hmode, Himage. reflexivity.
Qed.

(** The handler when the exchange throws. *)
Lemma onSubmit_threw data p e :
  prepare selectedImage data = ([], Normal p) ->
  exchange fetch data p = ([Fetch (request data p)], Threw e) ->
  onSubmit selectedImage fetch data =
    ([SetIsLoading true; SetResponse ""; Fetch (request data p);
      SetResponse ("Error: " ++ match e with
                                | Error message => message
                                | NonError => "An unknown error occurred"
                                end);
      ToastError "Failed to get response"; SetIsLoading false], Normal tt).
Proof.
  intros Hprepare Hexchange.
  rewrite (onSubmit_prepared data p Hprepare), Hexchange. reflexivity.
Qed.

(** The handler when the exchange shows a string. *)
Lemma onSubmit_shown data p shown :
  prepare selectedImage data = ([], Normal p) ->
  exchange fetch data p =
    ([Fetch (request data p); SetResponse shown;
      ToastSuccess "Response received successfully"], Normal tt) ->
  onSubmit selectedImage fetch data =
    ([SetIsLoading true; SetResponse ""; Fetch (request data p);
      SetResponse shown; ToastSuccess "Response received successfully";
      SetIsLoading false], Normal tt).
Proof.
  intros Hprepare Hexchange.
  rewrite (onSubmit_prepared data p Hprepare), Hexchange. reflexivity.
Qed.

Lemma onSubmit_waiting data p :
  prepare selectedImage data = ([], Normal p) ->
  exchange fetch data p = ([Fetch (request data p)], Suspended) ->
  onSubmit selectedImage fetch data =
    ([SetIsLoading true; SetResponse ""; Fetch (request data p)], Suspended).
Proof.
  intros Hprepare Hexchange.
  rewrite (onSubmit_prepared data p Hprepare), Hexchange. reflexivity.
Qed.

(** Every call goes one of the five ways of [outcome]. *)
Lemma onSubmit_outcome data : outcome (onSubmit selectedImage fetch data).
Proof.
  destruct (prepare_cases data) as [[Hmode [Himage _]] | [p [_ Hprepare]]].
  - rewrite (onSubmit_no_image data Hmode Himage). constructor.
  - destruct (exchange_cases data p) as [Hx | [[e Hx] | [shown Hx]]].
    + rewrite (onSubmit_waiting data p Hprepare Hx). constructor.
    + rewrite (onSubmit_threw data p e Hprepare Hx). constructor.
    + rewrite (onSubmit_shown data p shown Hprepare Hx). constructor.
Qed.

(** A call with a prepared request issues that request and no other. *)
Lemma onSubmit_requests data p :
  prepare selectedImage data = ([], Normal p) ->
  requests (fst (onSubmit selectedImage fetch data)) = [request data p].
Proof.
  intros Hprepare.
  destruct (exchange_cases data p) as [Hx | [[e Hx] | [shown Hx]]].
  - rewrite (onSubmit_waiting data p Hprepare Hx). reflexivity.
  - rewrite (onSubmit_threw data p e Hprepare Hx). reflexivity.
  - rewrite (onSubmit_shown data p shown Hprepare Hx). reflexivity.
Qed.

(** The request that a call issued is the one it prepared. *)
Lemma issued_request data req :
  requests (fst (onSubmit selectedImage fetch data)) = [req] ->
  exists p,
    prepare selectedImage data = ([], Normal p) /\ req = request data p.
Proof.
  intros Hreq.
  destruct (prepare_cases data) as [[Hmode [Himage _]] | [p [_ Hprepare]]].
  - rewrite (onSubmit_no_image data Hmode Himage) in Hreq. discriminate.
  - rewrite (onSubmit_requests data p Hprepare) in Hreq.
    exists p. split; [exact Hprepare | congruence].
Qed.

End HandlerFacts.

(** ** What is shown for a payload *)

Section Rendering.
Context {host : Host}.

Lemma get_not_null (payload : JSON.value) key :
  payload <> JNull -> get payload key = ret (JSON.field payload key).
Proof. destruct payload; intros Hnull; [congruence | reflexivity ..]. Qed.

Lemma field_not_null (payload : JSON.value) key x :
  JSON.field payload key = Some x -> payload <> JNull.
Proof. destruct payload; intros Hfield; discriminate. Qed.

Lemma truthy_string s : s <> "" -> JSON.truthy (Some (JString s)) = true.
Proof. destruct s; [congruence | reflexivity]. Qed.

(** A non-empty string in [final_response] is shown trimmed. *)
Lemma render_final_response payload s :
  JSON.field payload "final_response" = Some (JString s) ->
  s <> "" ->
  render payload = ([SetResponse (Str.trim s)], Normal tt).
Proof.
  intros Hfield Hs. unfold render, get_trim.
  rewrite (get_not_null payload _ (field_not_null _ _ _ Hfield)), Hfield.
  cbn [bind ret]. rewrite (truthy_string s Hs). reflexivity.
Qed.

(** With a falsy or absent [final_response], a non-empty string in
    [response] is shown trimmed. *)
Lemma render_response payload s :
  JSON.truthy (JSON.field payload "final_response") = false ->
  JSON.field payload "response" = Some (JString s) ->
  s <> "" ->
  render payload = ([SetResponse (Str.trim s)], Normal tt).
Proof.
  intros Hfinal Hfield Hs. unfold render, get_trim.
  rewrite !(get_not_null payload _ (field_not_null _ _ _ Hfield)), Hfield.
  cbn [bind ret]. rewrite Hfinal.
  cbn [bind ret]. rewrite (truthy_string s Hs). reflexivity.
Qed.

(** With both fields falsy or absent, the payload is printed whole. *)
Lemma render_whole payload :
  payload <> JNull ->
  JSON.truthy (JSON.field payload "final_response") = false ->
  JSON.truthy (JSON.field payload "response") = false ->
  render payload = ([SetResponse (JSON.stringify payload 2)], Normal tt).
Proof.
  intros Hnull Hfinal Hresponse. unfold render.
  rewrite !(get_not_null payload _ Hnull).
  cbn [bind ret]. rewrite Hfinal.
  cbn [bind ret]. rewrite Hresponse. reflexivity.
Qed.

(** A successful exchange whose payload renders as [shown]. *)
Lemma onSubmit_rendered selectedImage fetch data req res payload shown :
  requests (fst (onSubmit selectedImage fetch data)) = [req] ->
  fetch req = Fulfilled res ->
  Response.ok res = true ->
  Response.json res = Fulfilled payload ->
  render payload = ([SetResponse shown], Normal tt) ->
  onSubmit selectedImage fetch data =
    ([SetIsLoading true; SetResponse ""; Fetch req; SetResponse shown;
      ToastSuccess "Response received successfully"; SetIsLoading false],
     Normal tt).
Proof.
  intros Hreq Hfetch Hok Hjson Hrender.
  destruct (issued_request selectedImage fetch data req Hreq)
    as [p [Hprepare ->]].
  apply (onSubmit_shown selectedImage fetch data p shown Hprepare).
  rewrite (exchange_ok fetch data p res payload Hfetch Hok Hjson), Hrender.
  reflexivity.
Qed.

(** No await of a responsive network stays pending. *)
Lemma exchange_settles fetch data p :
  responsive fetch ->
  exchange fetch data p <> ([Fetch (request data p)], Suspended).
Proof.
  intros Hresponsive Hx.
  specialize (Hresponsive (request data p)).
  destruct (fetch (request data p)) as [| reason | res] eqn:Hfetch;
    [exact Hresponsive | |].
  - unfold exchange in Hx. rewrite Hfetch in Hx. discriminate.
  - destruct Hresponsive as [Htext Hjson].
    destruct (Response.ok res) eqn:Hok.
    + destruct (Response.json res) as [| reason | payload] eqn:Hp;
        [discriminate | |].
      * unfold exchange in Hx. rewrite Hfetch in Hx.
        cbn [bind emit await] in Hx. rewrite Hok, Hp in Hx. discriminate.
      * rewrite (exchange_ok fetch data p res payload Hfetch Hok Hp) in Hx.
        destruct (render_cases payload) as [[shown Hr] | [message Hr]];
          rewrite Hr in Hx; discriminate.
    + destruct (Response.text res) as [| reason | errorText] eqn:Ht;
        [discriminate | |].
      * unfold exchange in Hx. rewrite Hfetch in Hx.
        cbn [bind emit await] in Hx. rewrite Hok, Ht in Hx. discriminate.
      * rewrite (exchange_http_error fetch data p res errorText Hfetch Hok Ht)
          in Hx.
        discriminate.
Qed.

(** On a responsive network the handler comes to an end. *)
Lemma onSubmit_finishes selectedImage fetch data :
  responsive fetch ->
  finished (onSubmit selectedImage fetch data) = true.
Proof.
  intros Hresponsive.
  destruct (prepare_cases selectedImage data)
    as [[Hmode [Himage _]] | [p [_ Hprepare]]].
  - rewrite (onSubmit_no_image selectedImage fetch data Hmode Himage).
    reflexivity.
  - destruct (exchange_cases fetch data p) as [Hx | [[e Hx] | [shown Hx]]].
    + destruct (exchange_settles fetch data p Hresponsive Hx).
    + rewrite (onSubmit_threw selectedImage fetch data p e Hprepare Hx).
      reflexivity.
    + rewrite (onSubmit_shown selectedImage fetch data p shown Hprepare Hx).
      reflexivity.
Qed.

(** In image mode the handler does not read the system string. *)
Lemma onSubmit_image_system selectedImage fetch data data' :
  mode data = image ->
  mode data' = image ->
  prompt data = prompt data' ->
  chainedMode data = chainedMode data' ->
  onSubmit selectedImage fetch data = onSubmit selectedImage fetch data'.
Proof.
  intros Hmode Hmode' Hprompt Hchained.
  unfold onSubmit, prepare, exchange, request.
  rewrite Hmode, Hmode', Hprompt, Hchained. reflexivity.
Qed.

End Rendering.

(** ** The text of the JSON body *)

(** [JSON.stringify({ prompt, system })], member by member. *)
Lemma stringify_prompt_system {host : Host} (p s : string) :
  JSON.stringify (JObject [("prompt", JString p); ("system", JString s)]) 0 =
    "{" ++ JSON.quote "prompt" ++ ":" ++ JSON.quote p
    ++ "," ++ JSON.quote "system" ++ ":" ++ JSON.quote s ++ "}".
Proof.
  unfold JSON.stringify.
  cbn [JSON.serialize Str.replicate map JSON.wrap Str.is_empty Str.join].
  cbn [String.append]. f_equal.
  rewrite !append_assoc. cbn [String.append]. reflexivity.
Qed.

(** ** The claims about the handler *)

Section Claims.
Context {host : Host}.
Variable selectedImage : option File.
Variable fetch : Request -> promise Response.t.

(** C1. A valid submission (text mode, or image mode with a file chosen)
    issues exactly one request, a POST, whose URL is fixed by the pair
    (mode, chainedMode): /predict/text, /predict/chained_text,
    /predict/image or /predict/chained_image. *)
Theorem endpoint_by_mode_and_chaining data :
  (mode data = image -> selectedImage <> None) ->
  exists req,
    requests (fst (onSubmit selectedImage fetch data)) = [req] /\
    method req = "POST" /\
    url req =
      match mode data, chainedMode data with
      | text, false => "/predict/text"
      | text, true => "/predict/chained_text"
      | image, false => "/predict/image"
      | image, true => "/predict/chained_image"
      end.
Proof.
  intros Hvalid.
  destruct (mode data) eqn:Hmode.
  - pose proof (prepare_text selectedImage data Hmode) as Hprepare.
    eexists. split; [apply (onSubmit_requests _ _ _ _ Hprepare) |].
    split; [reflexivity |].
    cbn [request url fetchUrl]. destruct (chainedMode data); reflexivity.
  - destruct selectedImage as [file |] eqn:Himage;
      [| destruct (Hvalid eq_refl eq_refl)].
    pose proof (prepare_image (Some file) data file Hmode eq_refl) as Hprepare.
    eexists. split; [apply (onSubmit_requests _ _ _ _ Hprepare) |].
    split; [reflexivity |].
    cbn [request url fetchUrl]. destruct (chainedMode data); reflexivity.
Qed.

(** C3. In image mode with no file selected the handler short-circuits:
    it emits one error notification, issues no request, throws nothing and
    returns. *)
Theorem image_without_file_short_circuits data :
  mode data = image ->
  selectedImage = None ->
  notifications (fst (onSubmit selectedImage fetch data)) =
    [(false, "Please select an image before submitting")] /\
  requests (fst (onSubmit selectedImage fetch data)) = [] /\
  snd (onSubmit selectedImage fetch data) = Returned.
Proof.
  intros Hmode Himage.
  rewrite (onSubmit_no_image selectedImage fetch data Hmode Himage).
  repeat split.
Qed.

(** C4. When the request is answered with a non-success status [s] and the
    body text [b], the call ends in the error path and shows
    "Error: HTTP error! status: " ++ s ++ ", message: " ++ b, with one
    failure notification; status 500 with body "server error" shows
    "Error: HTTP error! status: 500, message: server error". *)
Theorem http_failure_is_rendered data req res b ui :
  requests (fst (onSubmit selectedImage fetch data)) = [req] ->
  fetch req = Fulfilled res ->
  Response.ok res = false ->
  Response.text res = Fulfilled b ->
  snd (onSubmit selectedImage fetch data) = Normal tt /\
  response (replay ui (fst (onSubmit selectedImage fetch data))) =
    "Error: HTTP error! status: " ++ Str.of_N (Response.status res)
    ++ ", message: " ++ b /\
  notifications (fst (onSubmit selectedImage fetch data)) =
    [(false, "Failed to get response")] /\
  (Response.status res = 500%N ->
   b = "server error" ->
   response (replay ui (fst (onSubmit selectedImage fetch data))) =
     "Error: HTTP error! status: 500, message: server error").
Proof.
  intros Hreq Hfetch Hok Htext.
  destruct (issued_request selectedImage fetch data req Hreq)
    as [p [Hprepare ->]].
  rewrite (onSubmit_threw selectedImage fetch data p _ Hprepare
             (exchange_http_error fetch data p res b Hfetch Hok Htext)).
  split; [reflexivity |]. split; [reflexivity |]. split; [reflexivity |].
  intros Hstatus Hbody. rewrite Hstatus, Hbody. reflexivity.
Qed.

(** C6. A valid submission in text mode issues one request whose body is
    the JSON text of the object with exactly the fields prompt and system
    of the submitted values, and whose headers carry Content-Type:
    application/json; prompt "Hello" and system "Sys" give the body
    {"prompt":"Hello","system":"Sys"}. *)
Theorem text_request_is_json data :
  mode data = text ->
  exists req,
    requests (fst (onSubmit selectedImage fetch data)) = [req] /\
    body req =
      BodyText (JSON.stringify
                  (JObject [("prompt", JString (prompt data));
                            ("system", JString (system data))]) 0) /\
    body req =
      BodyText ("{" ++ JSON.quote "prompt" ++ ":" ++ JSON.quote (prompt data)
                ++ "," ++ JSON.quote "system" ++ ":"
                ++ JSON.quote (system data) ++ "}") /\
    headers req = [("accept", "application/json");
                   ("Content-Type", "application/json")] /\
    (prompt data = "Hello" ->
     system data = "Sys" ->
     body req =
       BodyText ("{" ++ Str.DQ ++ "prompt" ++ Str.DQ ++ ":"
                 ++ Str.DQ ++ "Hello" ++ Str.DQ ++ ","
                 ++ Str.DQ ++ "system" ++ Str.DQ ++ ":"
                 ++ Str.DQ ++ "Sys" ++ Str.DQ ++ "}")).
Proof.
  intros Hmode.
  pose proof (prepare_text selectedImage data Hmode) as Hprepare.
  eexists. split; [apply (onSubmit_requests _ _ _ _ Hprepare) |].
  unfold request. rewrite Hmode. cbn [body headers requestBody headers_].
  split; [reflexivity |].
  split; [rewrite stringify_prompt_system; reflexivity |].
  split; [reflexivity |].
  intros Hprompt Hsystem. rewrite Hprompt, Hsystem. reflexivity.
Qed.

(** C7. A valid submission in image mode with the file [file] selected
    issues one request whose body is a multipart form with exactly the
    fields prompt (the submitted prompt) and image (the file), and whose
    headers hold no Content-Type. *)
Theorem image_request_is_multipart data file :
  mode data = image ->
  selectedImage = Some file ->
  exists req,
    requests (fst (onSubmit selectedImage fetch data)) = [req] /\
    body req = BodyFormData [("prompt", EntryString (prompt data));
                             ("image", EntryFile file)] /\
    headers req = [("accept", "application/json")] /\
    (forall v, ~ In ("Content-Type", v) (headers req)).
Proof.
  intros Hmode Himage.
  pose proof (prepare_image selectedImage data file Hmode Himage) as Hprepare.
  eexists. split; [apply (onSubmit_requests _ _ _ _ Hprepare) |].
  unfold request. rewrite Hmode. cbn [body headers requestBody].
  split; [reflexivity |]. split; [reflexivity |].
  intros v [Hin | []]. discriminate.
Qed.

(** C8. In image mode the system string is ignored: two submissions that
    agree on the prompt and on chainedMode make the same call, event for
    event (the same request, the same rendering of the same answer); and
    the same holds of two forms that differ in the system field only, once
    both have passed validation. *)
Theorem system_ignored_in_image_mode :
  (forall data data',
     mode data = image ->
     mode data' = image ->
     prompt data = prompt data' ->
     chainedMode data = chainedMode data' ->
     onSubmit selectedImage fetch data = onSubmit selectedImage fetch data') /\
  (forall raw raw' run run',
     mode raw = image ->
     mode raw' = image ->
     prompt raw = prompt raw' ->
     chainedMode raw = chainedMode raw' ->
     handleSubmit (onSubmit selectedImage fetch) raw = inr run ->
     handleSubmit (onSubmit selectedImage fetch) raw' = inr run' ->
     run = run').
Proof.
  split; [apply onSubmit_image_system |].
  intros raw raw' run run' Hmode Hmode' Hprompt Hchained.
  unfold handleSubmit.
  destruct (formSchema raw) as [errors | data] eqn:Hform; [discriminate |].
  destruct (formSchema raw') as [errors' | data'] eqn:Hform'; [discriminate |].
  intros Hrun Hrun'. inversion Hrun; subst run. inversion Hrun'; subst run'.
  destruct (formSchema_accepts raw data Hform) as [_ [Hp [Hm Hc]]].
  destruct (formSchema_accepts raw' data' Hform') as [_ [Hp' [Hm' Hc']]].
  apply onSubmit_image_system; congruence.
Qed.

(** C9. If every awaited promise settles the handler finishes, and when it
    finishes, whatever the outcome, the loading flag is false, exactly one
    notification (success or failure) was emitted, and no exception
    escapes. *)
Theorem loading_cleared_and_one_notification data ui :
  (responsive fetch -> finished (onSubmit selectedImage fetch data) = true) /\
  (finished (onSubmit selectedImage fetch data) = true ->
   isLoading (replay ui (fst (onSubmit selectedImage fetch data))) = false /\
   List.length (notifications (fst (onSubmit selectedImage fetch data))) = 1 /\
   (snd (onSubmit selectedImage fetch data) = Normal tt \/
    snd (onSubmit selectedImage fetch data) = Returned)).
Proof.
  split; [apply onSubmit_finishes |].
  pose proof (onSubmit_outcome selectedImage fetch data) as Hrun.
  remember (onSubmit selectedImage fetch data) as run eqn:Heq. clear Heq.
  destruct Hrun as [| req | req shown | req shown]; cbn; intros Hfinished;
    try discriminate; repeat split; auto.
Qed.

(** C10. Every call begins by setting the loading flag and clearing the
    displayed response, before any notification or request; so an image
    submission rejected for a missing file issues no request and still
    leaves the response empty, whatever was shown before. *)
Theorem response_cleared_first data ui :
  (exists rest,
     fst (onSubmit selectedImage fetch data) =
       SetIsLoading true :: SetResponse "" :: rest /\
     response (replay ui [SetIsLoading true; SetResponse ""]) = "") /\
  (mode data = image ->
   selectedImage = None ->
   requests (fst (onSubmit selectedImage fetch data)) = [] /\
   response (replay ui (fst (onSubmit selectedImage fetch data))) = "").
Proof.
  split.
  - pose proof (onSubmit_outcome selectedImage fetch data) as Hrun.
    destruct Hrun; eexists; split; reflexivity.
  - intros Hmode Himage.
    rewrite (onSubmit_no_image selectedImage fetch data Hmode Himage).
    split; reflexivity.
Qed.

End Claims.

(** ** The display rule *)

Section Display.
Context {host : Host}.
Variable selectedImage : option File.
Variable fetch : Request -> promise Response.t.

(** C2 (as amended). For a success response whose body parses to [payload],
    the string shown is chosen by truthiness, not by presence:
    [final_response] trimmed when that field is a non-empty string; else,
    [final_response] being absent or falsy, [response] trimmed when that
    field is a non-empty string; else, both being absent or falsy and the
    payload not [null], the payload printed with two spaces. So a payload
    other than [null] with neither key is printed whole, and
    {"final_response":"Diagnosis: X"} shows exactly "Diagnosis: X". Each
    of these ends with one success notification. *)
Theorem display_priority data req res payload ui :
  requests (fst (onSubmit selectedImage fetch data)) = [req] ->
  fetch req = Fulfilled res ->
  Response.ok res = true ->
  Response.json res = Fulfilled payload ->
  (forall s,
     JSON.field payload "final_response" = Some (JString s) ->
     s <> "" ->
     response (replay ui (fst (onSubmit selectedImage fetch data))) =
       Str.trim s /\
     notifications (fst (onSubmit selectedImage fetch data)) =
       [(true, "Response received successfully")]) /\
  (forall s,
     JSON.truthy (JSON.field payload "final_response") = false ->
     JSON.field payload "response" = Some (JString s) ->
     s <> "" ->
     response (replay ui (fst (onSubmit selectedImage fetch data))) =
       Str.trim s /\
     notifications (fst (onSubmit selectedImage fetch data)) =
       [(true, "Response received successfully")]) /\
  (payload <> JNull ->
   JSON.truthy (JSON.field payload "final_response") = false ->
   JSON.truthy (JSON.field payload "response") = false ->
   response (replay ui (fst (onSubmit selectedImage fetch data))) =
     JSON.stringify payload 2 /\
   notifications (fst (onSubmit selectedImage fetch data)) =
     [(true, "Response received successfully")]) /\
  (payload <> JNull ->
   JSON.field payload "final_response" = None ->
   JSON.field payload "response" = None ->
   response (replay ui (fst (onSubmit selectedImage fetch data))) =
     JSON.stringify payload 2) /\
  (payload = JObject [("final_response", JString "Diagnosis: X")] ->
   response (replay ui (fst (onSubmit selectedImage fetch data))) =
     "Diagnosis: X").
Proof.
  intros Hreq Hfetch Hok Hjson.
  pose proof (onSubmit_rendered selectedImage fetch data req res payload)
    as Hshown.
  specialize (fun shown => Hshown shown Hreq Hfetch Hok Hjson).
  split; [| split; [| split; [| split]]].
  - intros s Hfield Hs.
    rewrite (Hshown _ (render_final_response payload s Hfield Hs)).
    split; reflexivity.
  - intros s Hfinal Hfield Hs.
    rewrite (Hshown _ (render_response payload s Hfinal Hfield Hs)).
    split; reflexivity.
  - intros Hnull Hfinal Hresponse.
    rewrite (Hshown _ (render_whole payload Hnull Hfinal Hresponse)).
    split; reflexivity.
  - intros Hnull Hfinal Hresponse.
    assert (Hf : JSON.truthy (JSON.field payload "final_response") = false)
      by (rewrite Hfinal; reflexivity).
    assert (Hr : JSON.truthy (JSON.field payload "response") = false)
      by (rewrite Hresponse; reflexivity).
    rewrite (Hshown _ (render_whole payload Hnull Hf Hr)). reflexivity.
  - intros Hpayload.
    assert (Hfield : JSON.field payload "final_response"
                     = Some (JString "Diagnosis: X"))
      by (rewrite Hpayload; reflexivity).
    assert (Hs : "Diagnosis: X" <> "") by discriminate.
    rewrite (Hshown _ (render_final_response payload _ Hfield Hs)).
    reflexivity.
Qed.

End Display.

(** * The rest of the component *)

(** ** Trimming *)

Section Trimming.

Lemma trimStart_length s :
  (String.length (Str.trimStart s) <= String.length s)%nat.
Proof.
  induction s as [| c s IH]; cbn [Str.trimStart String.length]; [lia |].
  destruct (Str.is_space c); cbn [String.length]; lia.
Qed.

Lemma trimEnd_length s :
  (String.length (Str.trimEnd s) <= String.length s)%nat.
Proof.
  induction s as [| c s IH]; cbn [Str.trimEnd String.length]; [lia |].
  destruct (Str.trimEnd s) as [| k kept]; [destruct (Str.is_space c) |];
    cbn [String.length] in *; lia.
Qed.

Lemma trim_length s : (String.length (Str.trim s) <= String.length s)%nat.
Proof.
  unfold Str.trim.
  pose proof (trimEnd_length (Str.trimStart s)).
  pose proof (trimStart_length s). lia.
Qed.

Lemma trimStart_idempotent s :
  Str.trimStart (Str.trimStart s) = Str.trimStart s.
Proof.
  induction s as [| c s IH]; [reflexivity |].
  cbn [Str.trimStart]. destruct (Str.is_space c) eqn:Hc; [exact IH |].
  cbn [Str.trimStart]. rewrite Hc. reflexivity.
Qed.

Lemma trimEnd_idempotent s : Str.trimEnd (Str.trimEnd s) = Str.trimEnd s.
Proof.
  induction s as [| c s IH]; [reflexivity |].
  cbn [Str.trimEnd].
  destruct (Str.trimEnd s) as [| k kept] eqn:Hkept.
  - destruct (Str.is_space c) eqn:Hc; [reflexivity |].
    cbn [Str.trimEnd]. rewrite Hc. reflexivity.
  - change (Str.trimEnd (String c (String k kept)))
      with (match Str.trimEnd (String k kept) with
            | EmptyString =>
                if Str.is_space c then EmptyString else String c EmptyString
            | String k' kept' => String c (String k' kept')
            end).
    rewrite IH. reflexivity.
Qed.

(** A string without leading white space keeps none when its end is
    trimmed. *)
Lemma trimStart_trimEnd s :
  Str.trimStart s = s -> Str.trimStart (Str.trimEnd s) = Str.trimEnd s.
Proof.
  destruct s as [| c s]; [reflexivity |].
  cbn [Str.trimStart]. destruct (Str.is_space c) eqn:Hc.
  - intros Hfix. pose proof (trimStart_length s) as Hlen.
    rewrite Hfix in Hlen. cbn [String.length] in Hlen. lia.
  - intros _. cbn [Str.trimEnd].
    destruct (Str.trimEnd s) as [| k kept]; rewrite ?Hc;
      cbn [Str.trimStart]; rewrite Hc; reflexivity.
Qed.

Lemma trim_idempotent s : Str.trim (Str.trim s) = Str.trim s.
Proof.
  unfold Str.trim.
  rewrite (trimStart_trimEnd _ (trimStart_idempotent s)).
  apply trimEnd_idempotent.
Qed.

(** A string of white space trims to nothing. *)
Lemma trim_blank s :
  (forall c, In c (list_ascii_of_string s) -> Str.is_space c = true) ->
  Str.trim s = "".
Proof.
  intros Hblank. unfold Str.trim.
  assert (Hstart : Str.trimStart s = "").
  { induction s as [| c s IH]; [reflexivity |].
    cbn [Str.trimStart]. rewrite (Hblank c (or_introl eq_refl)).
    apply IH. intros c' Hin. apply Hblank. right. exact Hin. }
  rewrite Hstart. reflexivity.
Qed.

Lemma trimStart_keeps s c :
  In c (list_ascii_of_string s) ->
  Str.is_space c = false ->
  In c (list_ascii_of_string (Str.trimStart s)).
Proof.
  intros Hin Hc. induction s as [| a s IH]; [destruct Hin |].
  cbn [Str.trimStart]. destruct (Str.is_space a) eqn:Ha; [| exact Hin].
  destruct Hin as [-> | Hin]; [congruence | exact (IH Hin)].
Qed.

Lemma trimEnd_nonblank s c :
  In c (list_ascii_of_string s) ->
  Str.is_space c = false ->
  Str.trimEnd s <> "".
Proof.
  intros Hin Hc. induction s as [| a s IH]; [destruct Hin |].
  cbn [Str.trimEnd].
  destruct Hin as [-> | Hin].
  - destruct (Str.trimEnd s); rewrite ?Hc; discriminate.
  - specialize (IH Hin). destruct (Str.trimEnd s); [congruence | discriminate].
Qed.

(** A string with a character that is not white space does not trim to
    nothing. *)
Lemma trim_nonblank s c :
  In c (list_ascii_of_string s) ->
  Str.is_space c = false ->
  (1 <= String.length (Str.trim s))%nat.
Proof.
  intros Hin Hc. unfold Str.trim.
  pose proof (trimEnd_nonblank _ c (trimStart_keeps s c Hin Hc) Hc) as Hne.
  destruct (Str.trimEnd (Str.trimStart s)); [congruence |].
  cbn [String.length]. lia.
Qed.

Lemma replicate_chars n a c :
  In c (list_ascii_of_string (Str.replicate n a)) -> c = a.
Proof.
  induction n as [| n IH]; cbn [Str.replicate list_ascii_of_string];
    intros Hin; [destruct Hin |].
  destruct Hin as [Hc | Hin]; [congruence | exact (IH Hin)].
Qed.

End Trimming.

(** ** The form schema, field by field *)

Section Verdicts.

Lemma parse_system_issues s :
  snd (Zod.parse systemSchema s) =
    if Nat.ltb 500 (String.length (Str.trim s))
    then ["System message must be less than 500 characters"]
    else [].
Proof.
  unfold Zod.parse, systemSchema. cbn [Zod.run snd].
  destruct (Nat.ltb 500 (String.length (Str.trim s))); reflexivity.
Qed.

Lemma formSchema_by_issues raw :
  formSchema raw =
    match snd (Zod.parse promptSchema (prompt raw)),
          snd (Zod.parse systemSchema (system raw)) with
    | [], [] =>
        inr (mkFormData (mode raw) (Str.trim (prompt raw))
               (Str.trim (system raw)) (chainedMode raw))
    | p_issues, s_issues =>
        inl (mkFieldErrors (hd_error p_issues) (hd_error s_issues))
    end.
Proof.
  unfold formSchema. rewrite (parse_prompt (prompt raw)).
  change (Zod.parse systemSchema (system raw))
    with (Str.trim (system raw), snd (Zod.parse systemSchema (system raw))).
  destruct (snd (Zod.parse promptSchema (prompt raw))) as [| m ms];
    destruct (snd (Zod.parse systemSchema (system raw))) as [| n ns];
    reflexivity.
Qed.

(** Within the bounds the form passes, and the handler gets the trimmed
    fields. *)
Lemma formSchema_within raw :
  (1 <= String.length (Str.trim (prompt raw)) <= 2000)%nat ->
  (String.length (Str.trim (system raw)) <= 500)%nat ->
  formSchema raw =
    inr (mkFormData (mode raw) (Str.trim (prompt raw))
           (Str.trim (system raw)) (chainedMode raw)).
Proof.
  intros Hprompt Hsystem.
  rewrite formSchema_by_issues, parse_prompt_issues, parse_system_issues.
  destruct (Nat.ltb_spec (String.length (Str.trim (prompt raw))) 1); [lia |].
  destruct (Nat.ltb_spec 2000 (String.length (Str.trim (prompt raw)))); [lia |].
  destruct (Nat.ltb_spec 500 (String.length (Str.trim (system raw)))); [lia |].
  reflexivity.
Qed.

(** Outside the bounds the form fails, and each field has the error of its
    own verdict. *)
Lemma formSchema_outside raw :
  ~ ((1 <= String.length (Str.trim (prompt raw)) <= 2000)%nat /\
     (String.length (Str.trim (system raw)) <= 500)%nat) ->
  formSchema raw =
    inl (mkFieldErrors
           (if Nat.ltb (String.length (Str.trim (prompt raw))) 1
            then Some "Prompt is required"
            else if Nat.ltb 2000 (String.length (Str.trim (prompt raw)))
                 then Some "Prompt must be less than 2000 characters"
                 else None)
           (if Nat.ltb 500 (String.length (Str.trim (system raw)))
            then Some "System message must be less than 500 characters"
            else None)).
Proof.
  intros Houtside.
  rewrite formSchema_by_issues, parse_prompt_issues, parse_system_issues.
  destruct (Nat.ltb_spec (String.length (Str.trim (prompt raw))) 1);
    destruct (Nat.ltb_spec 2000 (String.length (Str.trim (prompt raw))));
    destruct (Nat.ltb_spec 500 (String.length (Str.trim (system raw))));
    try reflexivity; lia.
Qed.

(** X1. The form passes validation exactly when the trimmed prompt has
    between 1 and 2000 characters and the trimmed system message at most
    500; the values handed on are the trimmed fields, with the mode and the
    chained flag as they were. *)
Theorem formSchema_accepts_exactly raw :
  ((exists data, formSchema raw = inr data) <->
   (1 <= String.length (Str.trim (prompt raw)) <= 2000)%nat /\
   (String.length (Str.trim (system raw)) <= 500)%nat) /\
  (forall data,
     formSchema raw = inr data ->
     data = mkFormData (mode raw) (Str.trim (prompt raw))
              (Str.trim (system raw)) (chainedMode raw)).
Proof.
  assert (Hdec :
    ((1 <= String.length (Str.trim (prompt raw)) <= 2000)%nat /\
     (String.length (Str.trim (system raw)) <= 500)%nat) \/
    ~ ((1 <= String.length (Str.trim (prompt raw)) <= 2000)%nat /\
       (String.length (Str.trim (system raw)) <= 500)%nat)) by lia.
  destruct Hdec as [[Hp Hs] | Hout].
  - rewrite (formSchema_within raw Hp Hs). split.
    + split; [intros _; split; assumption | intros _; eexists; reflexivity].
    + intros data Hdata. congruence.
  - rewrite (formSchema_outside raw Hout). split.
    + split; [intros [data Hdata]; discriminate | intros Hin; tauto].
    + intros data Hdata. discriminate.
Qed.

(** X2. A prompt made of white space only is rejected as missing, however
    long it is: the length bound is never reached. *)
Theorem blank_prompt_is_required raw :
  (forall c, In c (list_ascii_of_string (prompt raw)) -> Str.is_space c = true) ->
  exists errors,
    formSchema raw = inl errors /\
    prompt_error errors = Some "Prompt is required".
Proof.
  intros Hblank.
  apply (formSchema_prompt_issue raw "Prompt is required" []).
  rewrite parse_prompt_issues, (trim_blank _ Hblank). reflexivity.
Qed.

(** X3. A form whose prompt holds a character that is not white space and
    has at most 2000 characters, and whose system message has at most 500,
    passes validation: trimming never lengthens a field. *)
Theorem short_fields_pass raw c :
  In c (list_ascii_of_string (prompt raw)) ->
  Str.is_space c = false ->
  (String.length (prompt raw) <= 2000)%nat ->
  (String.length (system raw) <= 500)%nat ->
  formSchema raw =
    inr (mkFormData (mode raw) (Str.trim (prompt raw))
           (Str.trim (system raw)) (chainedMode raw)).
Proof.
  intros Hin Hc Hprompt Hsystem.
  pose proof (trim_nonblank (prompt raw) c Hin Hc).
  pose proof (trim_length (prompt raw)).
  pose proof (trim_length (system raw)).
  apply formSchema_within; lia.
Qed.

(** X4. Validated values are a fixed point of the schema: validating them
    again accepts them and changes nothing. *)
Theorem formSchema_idempotent raw data :
  formSchema raw = inr data ->
  formSchema data = inr data.
Proof.
  intros Hdata.
  assert (Hdec :
    ((1 <= String.length (Str.trim (prompt raw)) <= 2000)%nat /\
     (String.length (Str.trim (system raw)) <= 500)%nat) \/
    ~ ((1 <= String.length (Str.trim (prompt raw)) <= 2000)%nat /\
       (String.length (Str.trim (system raw)) <= 500)%nat)) by lia.
  destruct Hdec as [[Hp Hs] | Hout];
    [| rewrite (formSchema_outside raw Hout) in Hdata; discriminate].
  rewrite (formSchema_within raw Hp Hs) in Hdata.
  inversion Hdata; subst data; clear Hdata.
  rewrite formSchema_within; cbn [prompt system mode chainedMode];
    rewrite ?trim_idempotent; auto.
Qed.

(** X5. When the form fails, each field carries the error of its own
    content, whatever the other field holds: the prompt "Prompt is required"
    when its trimmed form is empty, the length message when it is longer
    than 2000, none otherwise; the system message its length message when
    its trimmed form is longer than 500, none otherwise. Both are reported
    at once. *)
Theorem errors_field_by_field raw errors :
  formSchema raw = inl errors ->
  prompt_error errors =
    (if Nat.ltb (String.length (Str.trim (prompt raw))) 1
     then Some "Prompt is required"
     else if Nat.ltb 2000 (String.length (Str.trim (prompt raw)))
          then Some "Prompt must be less than 2000 characters"
          else None) /\
  system_error errors =
    (if Nat.ltb 500 (String.length (Str.trim (system raw)))
     then Some "System message must be less than 500 characters"
     else None).
Proof.
  intros Herrors.
  assert (Hdec :
    ((1 <= String.length (Str.trim (prompt raw)) <= 2000)%nat /\
     (String.length (Str.trim (system raw)) <= 500)%nat) \/
    ~ ((1 <= String.length (Str.trim (prompt raw)) <= 2000)%nat /\
       (String.length (Str.trim (system raw)) <= 500)%nat)) by lia.
  destruct Hdec as [[Hp Hs] | Hout];
    [rewrite (formSchema_within raw Hp Hs) in Herrors; discriminate |].
  rewrite (formSchema_outside raw Hout) in Herrors.
  inversion Herrors; subst errors. split; reflexivity.
Qed.

(** What a form that passes hands on. *)
Lemma formSchema_inr raw data :
  formSchema raw = inr data ->
  data = mkFormData (mode raw) (Str.trim (prompt raw))
           (Str.trim (system raw)) (chainedMode raw).
Proof.
  intros Hdata. rewrite formSchema_by_issues in Hdata.
  destruct (snd (Zod.parse promptSchema (prompt raw))) as [| m ms];
    destruct (snd (Zod.parse systemSchema (system raw))) as [| n ns];
    inversion Hdata; reflexivity.
Qed.

End Verdicts.

(** ** The handler off the beaten path *)

Section ErrorPaths.
Context {host : Host}.
Variable selectedImage : option File.
Variable fetch : Request -> promise Response.t.

Lemma exchange_pending data p :
  fetch (request data p) = Pending ->
  exchange fetch data p = ([Fetch (request data p)], Suspended).
Proof. intros Hfetch. unfold exchange. rewrite Hfetch. reflexivity. Qed.

Lemma exchange_rejected data p reason :
  fetch (request data p) = Rejected reason ->
  exchange fetch data p = ([Fetch (request data p)], Threw reason).
Proof. intros Hfetch. unfold exchange. rewrite Hfetch. reflexivity. Qed.

(** The exchange when the reader of the body that the status calls for does
    not deliver: [res.json()] on a success status, [res.text()] on a failure
    status. *)
Lemma exchange_body_pending data p res :
  fetch (request data p) = Fulfilled res ->
  (Response.ok res = true /\ Response.json res = Pending) \/
  (Response.ok res = false /\ Response.text res = Pending) ->
  exchange fetch data p = ([Fetch (request data p)], Suspended).
Proof.
  intros Hfetch [[Hok Hbody] | [Hok Hbody]]; unfold exchange;
    rewrite Hfetch; cbn [bind emit await]; rewrite Hok, Hbody; reflexivity.
Qed.

Lemma exchange_body_rejected data p res reason :
  fetch (request data p) = Fulfilled res ->
  (Response.ok res = true /\ Response.json res = Rejected reason) \/
  (Response.ok res = false /\ Response.text res = Rejected reason) ->
  exchange fetch data p = ([Fetch (request data p)], Threw reason).
Proof.
  intros Hfetch [[Hok Hbody] | [Hok Hbody]]; unfold exchange;
    rewrite Hfetch; cbn [bind emit await]; rewrite Hok, Hbody; reflexivity.
Qed.

(** A successful exchange whose payload cannot be rendered. *)
Lemma exchange_render_threw data p res payload e :
  fetch (request data p) = Fulfilled res ->
  Response.ok res = true ->
  Response.json res = Fulfilled payload ->
  render payload = ([], Threw e) ->
  exchange fetch data p = ([Fetch (request data p)], Threw e).
Proof.
  intros Hfetch Hok Hjson Hrender.
  rewrite (exchange_ok fetch data p res payload Hfetch Hok Hjson), Hrender.
  reflexivity.
Qed.

(** A truthy property that is not a string has no [trim]. *)
Lemma get_trim_not_string payload key v :
  JSON.field payload key = Some v ->
  (forall s, v <> JString s) ->
  get_trim payload key = ([], Threw (Error (not_a_function_message key))).
Proof.
  intros Hfield Hv. unfold get_trim.
  rewrite (get_not_null payload key (field_not_null _ _ _ Hfield)), Hfield.
  cbn [bind ret].
  destruct v as [| b | n | s | items | fields]; try reflexivity.
  destruct (Hv s eq_refl).
Qed.

Lemma render_final_response_not_string payload v :
  JSON.field payload "final_response" = Some v ->
  JSON.truthy (Some v) = true ->
  (forall s, v <> JString s) ->
  render payload =
    ([], Threw (Error (not_a_function_message "final_response"))).
Proof.
  intros Hfield Htruthy Hv. unfold render.
  rewrite (get_not_null payload _ (field_not_null _ _ _ Hfield)), Hfield.
  cbn [bind ret]. rewrite Htruthy.
  rewrite (get_trim_not_string payload _ v Hfield Hv). reflexivity.
Qed.

Lemma render_response_not_string payload v :
  JSON.truthy (JSON.field payload "final_response") = false ->
  JSON.field payload "response" = Some v ->
  JSON.truthy (Some v) = true ->
  (forall s, v <> JString s) ->
  render payload = ([], Threw (Error (not_a_function_message "response"))).
Proof.
  intros Hfinal Hfield Htruthy Hv. unfold render.
  rewrite !(get_not_null payload _ (field_not_null _ _ _ Hfield)), Hfield.
  cbn [bind ret]. rewrite Hfinal.
  cbn [bind ret]. rewrite Htruthy.
  rewrite (get_trim_not_string payload _ v Hfield Hv). reflexivity.
Qed.

(** The whole call when the exchange of the request it issued throws. *)
Lemma onSubmit_caught data req e :
  requests (fst (onSubmit selectedImage fetch data)) = [req] ->
  (forall p, req = request data p ->
             exchange fetch data p = ([Fetch req], Threw e)) ->
  onSubmit selectedImage fetch data =
    ([SetIsLoading true; SetResponse ""; Fetch req;
      SetResponse ("Error: " ++ match e with
                                | Error message => message
                                | NonError => "An unknown error occurred"
                                end);
      ToastError "Failed to get response"; SetIsLoading false], Normal tt).
Proof.
  intros Hreq Hexchange.
  destruct (issued_request selectedImage fetch data req Hreq)
    as [p [Hprepare Hp]].
  specialize (Hexchange p Hp). subst req.
  apply (onSubmit_threw selectedImage fetch data p e Hprepare Hexchange).
Qed.

(** X6. A request that the network fails (the promise of [fetch] rejects)
    ends in the error path: the message of the rejection is shown after
    "Error: ", or "An unknown error occurred" when what was thrown is not an
    [Error]; one failure notification is emitted, the loading flag is
    cleared, and nothing escapes the handler. *)
Theorem network_failure_is_rendered data req reason ui :
  requests (fst (onSubmit selectedImage fetch data)) = [req] ->
  fetch req = Rejected reason ->
  snd (onSubmit selectedImage fetch data) = Normal tt /\
  response (replay ui (fst (onSubmit selectedImage fetch data))) =
    "Error: " ++ match reason with
                 | Error message => message
                 | NonError => "An unknown error occurred"
                 end /\
  notifications (fst (onSubmit selectedImage fetch data)) =
    [(false, "Failed to get response")] /\
  isLoading (replay ui (fst (onSubmit selectedImage fetch data))) = false.
Proof.
  intros Hreq Hfetch.
  rewrite (onSubmit_caught data req reason Hreq).
  - repeat split.
  - intros p ->. apply exchange_rejected. exact Hfetch.
Qed.

(** X7. When the body of the answer cannot be read ([res.json()] rejects on
    a success status, as for a body that is not JSON, or [res.text()]
    rejects on a failure status), the message of that rejection is what is
    shown, with one failure notification; on a failure status the status
    code is then not shown at all. *)
Theorem unreadable_body_is_rendered data req res reason ui :
  requests (fst (onSubmit selectedImage fetch data)) = [req] ->
  fetch req = Fulfilled res ->
  (Response.ok res = true /\ Response.json res = Rejected reason) \/
  (Response.ok res = false /\ Response.text res = Rejected reason) ->
  response (replay ui (fst (onSubmit selectedImage fetch data))) =
    "Error: " ++ match reason with
                 | Error message => message
                 | NonError => "An unknown error occurred"
                 end /\
  notifications (fst (onSubmit selectedImage fetch data)) =
    [(false, "Failed to get response")] /\
  isLoading (replay ui (fst (onSubmit selectedImage fetch data))) = false.
Proof.
  intros Hreq Hfetch Hbody.
  rewrite (onSubmit_caught data req reason Hreq).
  - repeat split.
  - intros p ->. apply (exchange_body_rejected data p res reason Hfetch Hbody).
Qed.

(** X8. A success answer whose body is the JSON value [null] is not printed:
    reading [final_response] of it throws, and the page shows the engine's
    [TypeError] message after "Error: " with a failure notification. *)
Theorem null_payload_is_an_error data req res ui :
  requests (fst (onSubmit selectedImage fetch data)) = [req] ->
  fetch req = Fulfilled res ->
  Response.ok res = true ->
  Response.json res = Fulfilled JNull ->
  response (replay ui (fst (onSubmit selectedImage fetch data))) =
    "Error: " ++ null_property_message "final_response" /\
  notifications (fst (onSubmit selectedImage fetch data)) =
    [(false, "Failed to get response")].
Proof.
  intros Hreq Hfetch Hok Hjson.
  rewrite (onSubmit_caught data req
             (Error (null_property_message "final_response")) Hreq).
  - split; reflexivity.
  - intros p ->.
    apply (exchange_render_threw data p res JNull _ Hfetch Hok Hjson).
    reflexivity.
Qed.

(** X9. A truthy [final_response] that is not a string (a number other than
    zero, [true], an array, an object) sends a success answer to the error
    path, even when the payload also holds a good [response]; so does such a
    [response] when [final_response] is absent or falsy. The page shows the
    engine's message for the missing [trim] and a failure notification. *)
Theorem non_string_field_is_an_error data req res payload ui :
  requests (fst (onSubmit selectedImage fetch data)) = [req] ->
  fetch req = Fulfilled res ->
  Response.ok res = true ->
  Response.json res = Fulfilled payload ->
  (forall v,
     JSON.field payload "final_response" = Some v ->
     JSON.truthy (Some v) = true ->
     (forall s, v <> JString s) ->
     response (replay ui (fst (onSubmit selectedImage fetch data))) =
       "Error: " ++ not_a_function_message "final_response" /\
     notifications (fst (onSubmit selectedImage fetch data)) =
       [(false, "Failed to get response")]) /\
  (forall v,
     JSON.truthy (JSON.field payload "final_response") = false ->
     JSON.field payload "response" = Some v ->
     JSON.truthy (Some v) = true ->
     (forall s, v <> JString s) ->
     response (replay ui (fst (onSubmit selectedImage fetch data))) =
       "Error: " ++ not_a_function_message "response" /\
     notifications (fst (onSubmit selectedImage fetch data)) =
       [(false, "Failed to get response")]).
Proof.
  intros Hreq Hfetch Hok Hjson. split.
  - intros v Hfield Htruthy Hv.
    rewrite (onSubmit_caught data req
               (Error (not_a_function_message "final_response")) Hreq).
    + split; reflexivity.
    + intros p ->.
      apply (exchange_render_threw data p res payload _ Hfetch Hok Hjson).
      apply (render_final_response_not_string payload v Hfield Htruthy Hv).
  - intros v Hfinal Hfield Htruthy Hv.
    rewrite (onSubmit_caught data req
               (Error (not_a_function_message "response")) Hreq).
    + split; reflexivity.
    + intros p ->.
      apply (exchange_render_threw data p res payload _ Hfetch Hok Hjson).
      apply (render_response_not_string payload v Hfinal Hfield Htruthy Hv).
Qed.

End ErrorPaths.

(** ** The page around a call *)

Section Page.
Context {host : Host}.
Variable selectedImage : option File.
Variable fetch : Request -> promise Response.t.

(** X10. The handler never reports success for an answer it could not use:
    a success notification is emitted only when the request was answered
    with a success status and a body that parsed, and it is the fixed
    message. *)
Theorem success_needs_an_ok_answer data message :
  In (true, message) (notifications (fst (onSubmit selectedImage fetch data))) ->
  message = "Response received successfully" /\
  exists req res payload,
    requests (fst (onSubmit selectedImage fetch data)) = [req] /\
    fetch req = Fulfilled res /\
    Response.ok res = true /\
    Response.json res = Fulfilled payload.
Proof.
  intros Hin.
  destruct (prepare_cases selectedImage data)
    as [[Hmode [Himage _]] | [p [_ Hprepare]]].
  { rewrite (onSubmit_no_image selectedImage fetch data Hmode Himage) in Hin.
    destruct Hin as [Hin | []]. discriminate. }
  pose proof (onSubmit_requests selectedImage fetch data p Hprepare) as Hreq.
  assert (Hwaiting :
    exchange fetch data p = ([Fetch (request data p)], Suspended) -> False).
  { intros Hx.
    rewrite (onSubmit_waiting selectedImage fetch data p Hprepare Hx) in Hin.
    destruct Hin. }
  assert (Hthrew : forall e,
    exchange fetch data p = ([Fetch (request data p)], Threw e) -> False).
  { intros e Hx.
    rewrite (onSubmit_threw selectedImage fetch data p e Hprepare Hx) in Hin.
    destruct Hin as [Hin | []]. discriminate. }
  destruct (fetch (request data p)) as [| reason | res] eqn:Hfetch.
  - destruct (Hwaiting (exchange_pending fetch data p Hfetch)).
  - destruct (Hthrew _ (exchange_rejected fetch data p reason Hfetch)).
  - destruct (Response.ok res) eqn:Hok.
    + destruct (Response.json res) as [| reason | payload] eqn:Hjson.
      * destruct (Hwaiting (exchange_body_pending fetch data p res Hfetch
                              (or_introl (conj Hok Hjson)))).
      * destruct (Hthrew _ (exchange_body_rejected fetch data p res reason
                              Hfetch (or_introl (conj Hok Hjson)))).
      * split.
        -- destruct (exchange_cases fetch data p) as [Hx | [[e Hx] | [shown Hx]]].
           ++ destruct (Hwaiting Hx).
           ++ destruct (Hthrew e Hx).
           ++ rewrite (onSubmit_shown selectedImage fetch data p shown
                         Hprepare Hx) in Hin.
              destruct Hin as [Hin | []]. congruence.
        -- exists (request data p), res, payload. auto.
    + destruct (Response.text res) as [| reason | errorText] eqn:Htext.
      * destruct (Hwaiting (exchange_body_pending fetch data p res Hfetch
                              (or_intror (conj Hok Htext)))).
      * destruct (Hthrew _ (exchange_body_rejected fetch data p res reason
                              Hfetch (or_intror (conj Hok Htext)))).
      * destruct (Hthrew _ (exchange_http_error fetch data p res errorText
                              Hfetch Hok Htext)).
Qed.

(** X11. There is no timeout: if the promise of [fetch] never settles the
    call never finishes, and as long as a call has not finished the page
    stays in its loading state, with the button disabled and labelled
    "Processing...", no response card and no notification. *)
Theorem waiting_page_is_loading data watched errors imagePreview ui :
  (forall req,
     requests (fst (onSubmit selectedImage fetch data)) = [req] ->
     fetch req = Pending ->
     finished (onSubmit selectedImage fetch data) = false) /\
  (finished (onSubmit selectedImage fetch data) = false ->
   isLoading (replay ui (fst (onSubmit selectedImage fetch data))) = true /\
   response (replay ui (fst (onSubmit selectedImage fetch data))) = "" /\
   notifications (fst (onSubmit selectedImage fetch data)) = [] /\
   submit_disabled
     (view watched errors
        (replay ui (fst (onSubmit selectedImage fetch data))) imagePreview)
     = true /\
   submit_label
     (view watched errors
        (replay ui (fst (onSubmit selectedImage fetch data))) imagePreview)
     = "Processing..." /\
   response_card
     (view watched errors
        (replay ui (fst (onSubmit selectedImage fetch data))) imagePreview)
     = None).
Proof.
  split.
  - intros req Hreq Hfetch.
    destruct (issued_request selectedImage fetch data req Hreq)
      as [p [Hprepare ->]].
    rewrite (onSubmit_waiting selectedImage fetch data p Hprepare
               (exchange_pending fetch data p Hfetch)).
    reflexivity.
  - pose proof (onSubmit_outcome selectedImage fetch data) as Hrun.
    remember (onSubmit selectedImage fetch data) as run eqn:Heq. clear Heq.
    destruct Hrun as [| req | req shown | req shown]; cbn [finished snd];
      intros Hfinished; try discriminate.
    repeat split.
Qed.

(** X12. Nothing of the state before a call survives it: whatever response
    and loading flag the page had, the state after the events of a call is
    the same. *)
Theorem earlier_state_is_overwritten data ui ui' :
  replay ui (fst (onSubmit selectedImage fetch data)) =
  replay ui' (fst (onSubmit selectedImage fetch data)).
Proof.
  pose proof (onSubmit_outcome selectedImage fetch data) as Hrun.
  destruct Hrun; reflexivity.
Qed.

(** X13. A success answer whose [final_response] is white space only (and
    not empty) is reported as a success, yet the response is the empty
    string and no response card is rendered. *)
Theorem blank_final_response_shows_nothing
        data req res payload s watched errors imagePreview ui :
  requests (fst (onSubmit selectedImage fetch data)) = [req] ->
  fetch req = Fulfilled res ->
  Response.ok res = true ->
  Response.json res = Fulfilled payload ->
  JSON.field payload "final_response" = Some (JString s) ->
  s <> "" ->
  (forall c, In c (list_ascii_of_string s) -> Str.is_space c = true) ->
  notifications (fst (onSubmit selectedImage fetch data)) =
    [(true, "Response received successfully")] /\
  response (replay ui (fst (onSubmit selectedImage fetch data))) = "" /\
  response_card
    (view watched errors
       (replay ui (fst (onSubmit selectedImage fetch data))) imagePreview)
    = None.
Proof.
  intros Hreq Hfetch Hok Hjson Hfield Hs Hblank.
  rewrite (onSubmit_rendered selectedImage fetch data req res payload
             (Str.trim s) Hreq Hfetch Hok Hjson
             (render_final_response payload s Hfield Hs)).
  rewrite (trim_blank s Hblank). repeat split.
Qed.

(** X14. Every failure of an exchange is visible: whenever the notification
    "Failed to get response" is emitted, the response is "Error: " followed
    by a message, so the response card is rendered with it. *)
Theorem failure_shows_an_error_card data watched errors imagePreview ui :
  In (false, "Failed to get response")
     (notifications (fst (onSubmit selectedImage fetch data))) ->
  exists message,
    response (replay ui (fst (onSubmit selectedImage fetch data))) =
      "Error: " ++ message /\
    response_card
      (view watched errors
         (replay ui (fst (onSubmit selectedImage fetch data))) imagePreview)
      = Some ("Error: " ++ message).
Proof.
  intros Hin.
  destruct (prepare_cases selectedImage data)
    as [[Hmode [Himage _]] | [p [_ Hprepare]]].
  { rewrite (onSubmit_no_image selectedImage fetch data Hmode Himage) in Hin.
    destruct Hin as [Hin | []]. discriminate. }
  destruct (exchange_cases fetch data p) as [Hx | [[e Hx] | [shown Hx]]].
  - rewrite (onSubmit_waiting selectedImage fetch data p Hprepare Hx) in Hin.
    destruct Hin.
  - rewrite (onSubmit_threw selectedImage fetch data p e Hprepare Hx).
    eexists. split; reflexivity.
  - rewrite (onSubmit_shown selectedImage fetch data p shown Hprepare Hx) in Hin.
    destruct Hin as [Hin | []]. discriminate.
Qed.

(** X15. What reaches the server is what validation hands on: for a form
    that passes, a text submission posts the JSON of the trimmed prompt and
    the trimmed system message, and an image submission with a file posts
    the trimmed prompt and the file. *)
Theorem submitted_fields_are_trimmed raw run :
  handleSubmit (onSubmit selectedImage fetch) raw = inr run ->
  (mode raw = text ->
   requests (fst run) =
     [mkRequest
        (if chainedMode raw then "/predict/chained_text" else "/predict/text")
        "POST"
        [("accept", "application/json"); ("Content-Type", "application/json")]
        (BodyText
           (JSON.stringify
              (JObject [("prompt", JString (Str.trim (prompt raw)));
                        ("system", JString (Str.trim (system raw)))]) 0))]) /\
  (forall file,
     mode raw = image ->
     selectedImage = Some file ->
     requests (fst run) =
       [mkRequest
          (if chainedMode raw then "/predict/chained_image"
           else "/predict/image")
          "POST"
          [("accept", "application/json")]
          (BodyFormData [("prompt", EntryString (Str.trim (prompt raw)));
                         ("image", EntryFile file)])]).
Proof.
  unfold handleSubmit.
  destruct (formSchema raw) as [errors | data] eqn:Hform; [discriminate |].
  intros Hrun. inversion Hrun; subst run; clear Hrun.
  pose proof (formSchema_inr raw data Hform) as Hdata.
  split.
  - intros Hmode.
    assert (Hmode' : mode data = text) by (subst data; exact Hmode).
    rewrite (onSubmit_requests selectedImage fetch data _
               (prepare_text selectedImage data Hmode')).
    unfold request. rewrite Hmode'. subst data. reflexivity.
  - intros file Hmode Himage.
    assert (Hmode' : mode data = image) by (subst data; exact Hmode).
    rewrite (onSubmit_requests selectedImage fetch data _
               (prepare_image selectedImage data file Hmode' Himage)).
    unfold request. rewrite Hmode'. subst data. reflexivity.
Qed.

(** X16. In image mode the system field is not rendered, yet it is
    validated: a system message whose trimmed form is longer than 500
    characters blocks an image submission whose prompt is fine. The click
    changes nothing of the state, and the page shows no message for it,
    since the system error is rendered in text mode only. *)
Theorem hidden_system_blocks_silently raw imagePreview ui :
  mode raw = image ->
  (1 <= String.length (Str.trim (prompt raw)) <= 2000)%nat ->
  (500 < String.length (Str.trim (system raw)))%nat ->
  exists errors,
    submit selectedImage fetch raw ui = (errors, ui) /\
    system_error errors =
      Some "System message must be less than 500 characters" /\
    system_field (view (mode raw) errors ui imagePreview) = false /\
    system_message (view (mode raw) errors ui imagePreview) = None /\
    prompt_message (view (mode raw) errors ui imagePreview) = None.
Proof.
  intros Hmode Hprompt Hsystem.
  assert (Hout :
    ~ ((1 <= String.length (Str.trim (prompt raw)) <= 2000)%nat /\
       (String.length (Str.trim (system raw)) <= 500)%nat)) by lia.
  unfold submit, handleSubmit. rewrite (formSchema_outside raw Hout).
  eexists. split; [reflexivity |].
  rewrite Hmode. cbn [system_error prompt_error view system_field
                      system_message prompt_message].
  destruct (Nat.ltb_spec (String.length (Str.trim (prompt raw))) 1); [lia |].
  destruct (Nat.ltb_spec 2000 (String.length (Str.trim (prompt raw)))); [lia |].
  destruct (Nat.ltb_spec 500 (String.length (Str.trim (system raw)))); [| lia].
  repeat split.
Qed.

End Page.

(** X17. The form as first shown cannot be submitted, for want of a prompt;
    and as long as the system message is left at its default, the prompt
    alone decides, in either mode: the form passes exactly when the trimmed
    prompt has between 1 and 2000 characters. *)
Theorem default_form_needs_a_prompt (m : Mode) (p : string) (c : bool) :
  formSchema defaultValues =
    inl (mkFieldErrors (Some "Prompt is required") None) /\
  ((exists data,
      formSchema (mkFormData m p (system defaultValues) c) = inr data) <->
   (1 <= String.length (Str.trim p) <= 2000)%nat).
Proof.
  split; [reflexivity |].
  assert (Hsystem :
    (String.length (Str.trim (system defaultValues)) <= 500)%nat).
  { apply Nat.leb_le. vm_compute. reflexivity. }
  split.
  - intros [data Hdata].
    assert (Hdec :
      (1 <= String.length (Str.trim p) <= 2000)%nat \/
      ~ (1 <= String.length (Str.trim p) <= 2000)%nat) by lia.
    destruct Hdec as [Hin | Hout]; [exact Hin |].
    rewrite formSchema_outside in Hdata; [discriminate |].
    cbn [prompt system]. tauto.
  - intros Hin. eexists.
    apply formSchema_within; cbn [prompt system]; assumption.
Qed.

(** ** The image picker *)

Section PickerFacts.
Context {host : Host}.
Variable dataURL : File -> string.

Lemma run_app st before after :
  Picker.run dataURL st (before ++ after) =
    match Picker.run dataURL st before with
    | Some st' => Picker.run dataURL st' after
    | None => None
    end.
Proof.
  revert st. induction before as [| a before IH]; intros st; [reflexivity |].
  cbn [Picker.run List.app].
  destruct (Picker.step dataURL st a) as [st' |]; [apply IH | reflexivity].
Qed.

(** The completion of a read leaves the selection alone. *)
Lemma loads_keep_selection loads :
  (forall a, In a loads -> exists i, a = Picker.Load i) ->
  forall st st',
    Picker.run dataURL st loads = Some st' ->
    Picker.selectedImage st' = Picker.selectedImage st.
Proof.
  induction loads as [| a loads IH]; intros Hloads st st' Hrun.
  - inversion Hrun. reflexivity.
  - destruct (Hloads a (or_introl eq_refl)) as [i ->].
    cbn [Picker.run Picker.step] in Hrun. unfold Picker.onload in Hrun.
    destruct (nth_error (Picker.reading st) i) as [file |]; [| discriminate].
    rewrite (IH (fun a Hin => Hloads a (or_intror Hin)) _ _ Hrun).
    reflexivity.
Qed.

(** X18. The selection is always the first file of the latest change of the
    file input (none when that change carried no file), whatever happened
    before and whichever reads have completed since. *)
Theorem selection_follows_last_change st before files loads st' :
  (forall a, In a loads -> exists i, a = Picker.Load i) ->
  Picker.run dataURL st (before ++ Picker.Change files :: loads) = Some st' ->
  Picker.selectedImage st' = Picker.first files.
Proof.
  intros Hloads Hrun. rewrite run_app in Hrun.
  destruct (Picker.run dataURL st before) as [st0 |]; [| discriminate].
  cbn [Picker.run Picker.step] in Hrun.
  rewrite (loads_keep_selection loads Hloads _ _ Hrun).
  unfold Picker.handleImageChange.
  destruct (Picker.first files); reflexivity.
Qed.

(** X19. A read is never aborted, so the preview can disagree with the
    selection. When a second file is chosen before the first has been read
    and the first read completes last, the preview is the first file while
    an image submission posts the second; when the selection is removed
    before the read completes, the preview of the removed file appears
    although no file is selected. *)
Theorem late_read_overtakes st a others b others' none fetch data :
  Picker.reading st = [] ->
  Picker.first none = None ->
  mode data = image ->
  (exists st',
     Picker.run dataURL st
       [Picker.Change (Some (a :: others)); Picker.Change (Some (b :: others'));
        Picker.Load 1; Picker.Load 0] = Some st' /\
     Picker.imagePreview st' = dataURL a /\
     Picker.selectedImage st' = Some b /\
     requests (fst (onSubmit (Picker.selectedImage st') fetch data)) =
       [mkRequest
          (if chainedMode data then "/predict/chained_image"
           else "/predict/image")
          "POST"
          [("accept", "application/json")]
          (BodyFormData [("prompt", EntryString (prompt data));
                         ("image", EntryFile b)])]) /\
  (exists st',
     Picker.run dataURL st
       [Picker.Change (Some (a :: others)); Picker.Change none;
        Picker.Load 0] = Some st' /\
     Picker.imagePreview st' = dataURL a /\
     Picker.selectedImage st' = None /\
     requests (fst (onSubmit (Picker.selectedImage st') fetch data)) = []).
Proof.
  intros Hreading Hnone Hmode.
  destruct st as [selected shown reading]. cbn [Picker.reading] in Hreading.
  subst reading. split.
  - exists (Picker.mk (Some b) (dataURL a) []). split; [reflexivity |].
    cbn [Picker.imagePreview Picker.selectedImage].
    split; [reflexivity |]. split; [reflexivity |].
    rewrite (onSubmit_requests (Some b) fetch data _
               (prepare_image (Some b) data b Hmode eq_refl)).
    unfold request. rewrite Hmode. reflexivity.
  - cbn [Picker.run Picker.step]. unfold Picker.handleImageChange at 1.
    rewrite Hnone. exists (Picker.mk None (dataURL a) []).
    split; [reflexivity |].
    cbn [Picker.imagePreview Picker.selectedImage].
    split; [reflexivity |]. split; [reflexivity |].
    rewrite (onSubmit_no_image None fetch data Hmode eq_refl). reflexivity.
Qed.

Lemma pick_keeps_in_step files st :
  Picker.reading st = [] ->
  exists st',
    Picker.run dataURL st (Picker.pick files) = Some st' /\
    Picker.reading st' = [] /\
    Picker.in_step dataURL st' /\
    Picker.selectedImage st' = Picker.first files.
Proof.
  intros Hreading. destruct st as [selected shown reading].
  cbn [Picker.reading] in Hreading. subst reading.
  unfold Picker.pick.
  destruct (Picker.first files) as [file |] eqn:Hfirst.
  - cbn [Picker.run Picker.step]. unfold Picker.handleImageChange.
    rewrite Hfirst. eexists. split; [reflexivity |]. repeat split.
  - cbn [Picker.run Picker.step]. unfold Picker.handleImageChange.
    rewrite Hfirst. eexists. split; [reflexivity |]. repeat split.
Qed.

(** X20. When every read completes before the next change of the file
    input, the preview keeps in step with the selection: after any number
    of such changes no read is in flight, and the preview is the data URL
    of the selected file, or empty when no file is selected. *)
Theorem quiet_picks_stay_in_step picks st :
  Picker.reading st = [] ->
  Picker.in_step dataURL st ->
  exists st',
    Picker.run dataURL st (concat (map Picker.pick picks)) = Some st' /\
    Picker.reading st' = [] /\
    Picker.in_step dataURL st'.
Proof.
  revert st. induction picks as [| files picks IH]; intros st Hreading Hstep.
  - exists st. repeat split; assumption.
  - destruct (pick_keeps_in_step files st Hreading)
      as [st1 [Hrun [Hreading1 [Hstep1 _]]]].
    destruct (IH st1 Hreading1 Hstep1) as [st' [Hrun' [Hreading' Hstep']]].
    exists st'. cbn [map concat]. rewrite run_app, Hrun.
    repeat split; assumption.
Qed.

End PickerFacts.

(** ** The JSON body determines the fields *)

Section Quoting.

Lemma append_cancel (a x y : string) : a ++ x = a ++ y -> x = y.
Proof.
  induction a as [| c a IH]; cbn [String.append]; intros H; [exact H |].
  inversion H. auto.
Qed.

(** Of two strings that begin the same text, one begins the other. *)
Lemma append_prefix (a b x y : string) :
  a ++ x = b ++ y -> String.prefix a b = true \/ String.prefix b a = true.
Proof.
  revert b. induction a as [| c a IH]; intros b H;
    [left; destruct b; reflexivity |].
  destruct b as [| d b]; [right; reflexivity |].
  cbn [String.append] in H. inversion H; subst d.
  cbn [String.prefix]. destruct (ascii_dec c c) as [_ | Hne];
    [auto | destruct (Hne eq_refl)].
Qed.

(** The escapes of [JSON.quote_char] form a prefix code that the closing
    quote cannot be confused with: checked on the 256 code units. *)
Lemma quote_char_table :
  forallb
    (fun n =>
       negb (String.prefix Str.DQ (JSON.quote_char (ascii_of_nat n)))
       && negb (String.prefix (JSON.quote_char (ascii_of_nat n)) Str.DQ)
       && forallb
            (fun n' =>
               implb (String.prefix (JSON.quote_char (ascii_of_nat n))
                        (JSON.quote_char (ascii_of_nat n')))
                     (Nat.eqb n n'))
            (seq 0 256))
    (seq 0 256) = true.
Proof. vm_compute. reflexivity. Qed.

Lemma code_unit_listed c : In (nat_of_ascii c) (seq 0 256).
Proof. apply in_seq. pose proof (nat_ascii_bounded c). lia. Qed.

Lemma quote_char_not_quote c x y :
  JSON.quote_char c ++ x <> Str.DQ ++ y.
Proof.
  intros H.
  pose proof (proj1 (forallb_forall _ _) quote_char_table
                (nat_of_ascii c) (code_unit_listed c)) as Hrow.
  cbv beta in Hrow. rewrite ascii_nat_embedding in Hrow.
  apply andb_prop in Hrow. destruct Hrow as [Hrow _].
  apply andb_prop in Hrow. destruct Hrow as [H1 H2].
  destruct (append_prefix _ _ _ _ H) as [Hp | Hp]; rewrite Hp in *; discriminate.
Qed.

Lemma quote_char_prefix_free c c' x y :
  JSON.quote_char c ++ x = JSON.quote_char c' ++ y -> c = c' /\ x = y.
Proof.
  intros H.
  assert (Hrow : forall a b,
    String.prefix (JSON.quote_char a) (JSON.quote_char b) = true -> a = b).
  { intros a b Hp.
    pose proof (proj1 (forallb_forall _ _) quote_char_table
                  (nat_of_ascii a) (code_unit_listed a)) as Hrow.
    cbv beta in Hrow.
    apply andb_prop in Hrow. destruct Hrow as [_ Hrow].
    pose proof (proj1 (forallb_forall _ _) Hrow
                  (nat_of_ascii b) (code_unit_listed b)) as Hcell.
    cbv beta in Hcell.
    rewrite !ascii_nat_embedding, Hp in Hcell. cbn [implb] in Hcell.
    apply Nat.eqb_eq in Hcell.
    rewrite <- (ascii_nat_embedding a), <- (ascii_nat_embedding b).
    congruence. }
  assert (Hc : c = c').
  { destruct (append_prefix _ _ _ _ H) as [Hp | Hp];
      [exact (Hrow _ _ Hp) | symmetry; exact (Hrow _ _ Hp)]. }
  subst c'. split; [reflexivity | exact (append_cancel _ _ _ H)].
Qed.

(** The text between the quotes of a JSON string, followed by the closing
    quote, determines the string and what follows. *)
Lemma quote_chars_injective p :
  forall p' r r',
    JSON.quote_chars p ++ Str.DQ ++ r = JSON.quote_chars p' ++ Str.DQ ++ r' ->
    p = p' /\ r = r'.
Proof.
  induction p as [| c p IH]; intros [| c' p'] r r' H.
  - split; [reflexivity | exact (append_cancel Str.DQ _ _ H)].
  - cbn [JSON.quote_chars] in H. rewrite append_assoc in H.
    symmetry in H. destruct (quote_char_not_quote _ _ _ H).
  - cbn [JSON.quote_chars] in H. rewrite append_assoc in H.
    destruct (quote_char_not_quote _ _ _ H).
  - cbn [JSON.quote_chars] in H. rewrite !append_assoc in H.
    destruct (quote_char_prefix_free _ _ _ _ H) as [-> Hrest].
    destruct (IH _ _ _ Hrest) as [-> ->]. split; reflexivity.
Qed.

End Quoting.

Section Body.
Context {host : Host}.
Variable selectedImage : option File.
Variable fetch : Request -> promise Response.t.

(** X21. The body of a text request determines the fields it was built
    from: two text submissions issue requests with the same body only if
    they have the same prompt and the same system message, whatever quotes,
    backslashes or control characters these hold. *)
Theorem text_body_determines_fields data data' req req' :
  mode data = text ->
  mode data' = text ->
  requests (fst (onSubmit selectedImage fetch data)) = [req] ->
  requests (fst (onSubmit selectedImage fetch data')) = [req'] ->
  body req = body req' ->
  prompt data = prompt data' /\ system data = system data'.
Proof.
  intros Hmode Hmode' Hreq Hreq' Hbody.
  rewrite (onSubmit_requests selectedImage fetch data _
             (prepare_text selectedImage data Hmode)) in Hreq.
  rewrite (onSubmit_requests selectedImage fetch data' _
             (prepare_text selectedImage data' Hmode')) in Hreq'.
  inversion Hreq; subst req; clear Hreq.
  inversion Hreq'; subst req'; clear Hreq'.
  cbn [request body requestBody] in Hbody.
  rewrite !stringify_prompt_system in Hbody.
  inversion Hbody as [Hprompt]; clear Hbody.
  rewrite !append_assoc in Hprompt.
  destruct (quote_chars_injective _ _ _ _ Hprompt) as [Hp Hrest].
  split; [exact Hp |].
  inversion Hrest as [Hsystem]; clear Hrest.
  rewrite ?append_assoc in Hsystem.
  destruct (quote_chars_injective _ _ _ _ Hsystem) as [Hs _].
  exact Hs.
Qed.

End Body.

(** * The claims on concrete inputs *)

#[local] Existing Instance V8.

(** C2, as the specification words it, fails on a success payload whose
    [final_response] is present and empty: the specification shows the empty
    string, the page shows the trimmed [response]. *)
Lemma display_by_presence_fails :
  let run := onSubmit None (always (answer 200 "" Sample.fallback)) Sample.hello in
  display_by_presence Sample.fallback = Some "" /\
  response (replay Sample.idle (fst run)) = "B" /\
  display_by_presence Sample.fallback
    <> Some (response (replay Sample.idle (fst run))).
Proof.
  cbv zeta. split; [reflexivity |]. split; [reflexivity |].
  vm_compute. discriminate.
Qed.

(** C5, as the specification words it, fails on a prompt of 2000 letters and
    a trailing blank: it is longer than 2000 characters and the form accepts
    it, handing the 2000 letters to the handler. *)
Lemma long_prompt_accepted :
  (2000 < String.length (prompt Sample.padded))%nat /\
  handleSubmit (fun data => data) Sample.padded =
    inr (mkFormData text (Str.replicate 2000 "a") "Sys" false).
Proof.
  split.
  - apply Nat.ltb_lt. vm_compute. reflexivity.
  - vm_compute. reflexivity.
Qed.

(** The three parts of C5 on a blank prompt, on 2001 letters and on 'Hello'. *)
Lemma prompt_validation_witness :
  (exists errors,
     handleSubmit (fun data => data) Sample.blank = inl errors /\
     prompt_error errors = Some "Prompt is required") /\
  (exists errors,
     handleSubmit (fun data => data) Sample.wordy = inl errors /\
     prompt_error errors = Some "Prompt must be less than 2000 characters") /\
  (1 <= String.length (Str.trim (prompt Sample.hello)) <= 2000)%nat.
Proof.
  split; [| split].
  - apply (proj1 (prompt_validation (fun data => data) Sample.blank)).
    reflexivity.
  - apply (proj1 (proj2 (prompt_validation (fun data => data) Sample.wordy))).
    apply Nat.ltb_lt. vm_compute. reflexivity.
  - apply (proj2 (proj2 (prompt_validation (fun data => data) Sample.hello))
             Sample.hello).
    reflexivity.
Defined.

(** C1 on a chained image submission. *)
Lemma endpoint_by_mode_and_chaining_witness :
  exists req,
    requests (fst (onSubmit (Some Sample.scan)
                     (always (answer 200 "" Sample.diagnosis))
                     Sample.picture)) = [req] /\
    method req = "POST" /\
    url req = "/predict/chained_image".
Proof.
  apply (endpoint_by_mode_and_chaining (Some Sample.scan)
           (always (answer 200 "" Sample.diagnosis)) Sample.picture).
  intros _. discriminate.
Defined.

(** C3 on an image submission with no file. *)
Lemma image_without_file_short_circuits_witness :
  notifications (fst (onSubmit None (fun _ => Pending) Sample.picture)) =
    [(false, "Please select an image before submitting")] /\
  requests (fst (onSubmit None (fun _ => Pending) Sample.picture)) = [] /\
  snd (onSubmit None (fun _ => Pending) Sample.picture) = Returned.
Proof.
  apply (image_without_file_short_circuits None (fun _ => Pending)
           Sample.picture); reflexivity.
Defined.

(** C4 on status 500 with the body 'server error'. *)
Lemma http_failure_is_rendered_witness :
  response
    (replay Sample.idle
       (fst (onSubmit None (always (answer 500 "server error" JNull))
               Sample.hello))) =
    "Error: HTTP error! status: 500, message: server error".
Proof.
  apply (proj2 (proj2 (proj2
           (http_failure_is_rendered None
              (always (answer 500 "server error" JNull)) Sample.hello
              Sample.hello_request (answer 500 "server error" JNull)
              "server error" Sample.idle
              eq_refl eq_refl eq_refl eq_refl))));
    reflexivity.
Defined.

(** C6 on the prompt 'Hello' and the system message 'Sys'. *)
Lemma text_request_is_json_witness :
  exists req,
    requests (fst (onSubmit None (fun _ => Pending) Sample.hello)) = [req] /\
    body req =
      BodyText ("{" ++ Str.DQ ++ "prompt" ++ Str.DQ ++ ":"
                ++ Str.DQ ++ "Hello" ++ Str.DQ ++ ","
                ++ Str.DQ ++ "system" ++ Str.DQ ++ ":"
                ++ Str.DQ ++ "Sys" ++ Str.DQ ++ "}") /\
    headers req = [("accept", "application/json");
                   ("Content-Type", "application/json")].
Proof.
  destruct (text_request_is_json None (fun _ => Pending) Sample.hello eq_refl)
    as [req [Hreq [_ [_ [Hheaders Hbody]]]]].
  exists req. split; [exact Hreq |].
  split; [exact (Hbody eq_refl eq_refl) | exact Hheaders].
Defined.

(** C7 on a chained image submission with a file. *)
Lemma image_request_is_multipart_witness :
  exists req,
    requests (fst (onSubmit (Some Sample.scan) (fun _ => Pending)
                     Sample.picture)) = [req] /\
    body req = BodyFormData [("prompt", EntryString "Describe");
                             ("image", EntryFile Sample.scan)] /\
    headers req = [("accept", "application/json")] /\
    (forall v, ~ In ("Content-Type", v) (headers req)).
Proof.
  apply (image_request_is_multipart (Some Sample.scan) (fun _ => Pending)
           Sample.picture Sample.scan); reflexivity.
Defined.

(** C8 on two image submissions with different system messages. *)
Lemma system_ignored_in_image_mode_witness :
  onSubmit (Some Sample.scan) (always (answer 200 "" Sample.diagnosis))
    Sample.picture =
  onSubmit (Some Sample.scan) (always (answer 200 "" Sample.diagnosis))
    Sample.picture'.
Proof.
  apply (proj1 (system_ignored_in_image_mode (Some Sample.scan)
                  (always (answer 200 "" Sample.diagnosis)))
           Sample.picture Sample.picture'); reflexivity.
Defined.

(** C9 on a text submission answered with a payload printed whole. *)
Lemma loading_cleared_and_one_notification_witness :
  isLoading
    (replay Sample.idle
       (fst (onSubmit None (always (answer 200 "" Sample.other))
               Sample.hello))) = false /\
  List.length
    (notifications
       (fst (onSubmit None (always (answer 200 "" Sample.other))
               Sample.hello))) = 1.
Proof.
  destruct (loading_cleared_and_one_notification None
              (always (answer 200 "" Sample.other)) Sample.hello Sample.idle)
    as [Hfinishes Hthen].
  assert (Hresponsive : responsive (always (answer 200 "" Sample.other))).
  { intros req. cbn. split; reflexivity. }
  destruct (Hthen (Hfinishes Hresponsive)) as [Hflag [Hone _]].
  split; [exact Hflag | exact Hone].
Defined.

(** C10 on an image submission with no file, after an earlier answer. *)
Lemma response_cleared_first_witness :
  requests (fst (onSubmit None (fun _ => Pending) Sample.picture)) = [] /\
  response
    (replay Sample.idle
       (fst (onSubmit None (fun _ => Pending) Sample.picture))) = "".
Proof.
  apply (proj2 (response_cleared_first None (fun _ => Pending)
                  Sample.picture Sample.idle)); reflexivity.
Defined.

(** C2 on the payload with the final_response 'Diagnosis: X'. *)
Lemma display_priority_witness :
  response
    (replay Sample.idle
       (fst (onSubmit None (always (answer 200 "" Sample.diagnosis))
               Sample.hello))) = "Diagnosis: X".
Proof.
  apply (proj2 (proj2 (proj2 (proj2
           (display_priority None (always (answer 200 "" Sample.diagnosis))
              Sample.hello Sample.hello_request
              (answer 200 "" Sample.diagnosis) Sample.diagnosis Sample.idle
              eq_refl eq_refl eq_refl eq_refl))))).
  reflexivity.
Defined.

(** * The rest of the component on concrete inputs *)

(** X1 on a padded form and on a blank prompt. *)
Lemma formSchema_accepts_exactly_witness :
  (exists data, formSchema Example.padded_hello = inr data) /\
  ~ (exists data, formSchema Sample.blank = inr data).
Proof.
  split.
  - apply (proj2 (proj1 (formSchema_accepts_exactly Example.padded_hello))).
    vm_compute. repeat split; repeat constructor.
  - intros Haccepted.
    apply (proj1 (proj1 (formSchema_accepts_exactly Sample.blank))) in Haccepted.
    vm_compute in Haccepted. destruct Haccepted as [[Hone _] _].
    inversion Hone.
Defined.

(** X2 on 3000 blanks. *)
Lemma blank_prompt_is_required_witness :
  exists errors,
    formSchema Example.spaces = inl errors /\
    prompt_error errors = Some "Prompt is required".
Proof.
  apply (blank_prompt_is_required Example.spaces).
  intros c Hin. rewrite (replicate_chars 3000 " " c Hin). reflexivity.
Defined.

(** X3 on a padded form. *)
Lemma short_fields_pass_witness :
  formSchema Example.padded_hello = inr Sample.hello.
Proof.
  apply (short_fields_pass Example.padded_hello "H").
  - cbn. right. right. left. reflexivity.
  - reflexivity.
  - apply Nat.leb_le. reflexivity.
  - apply Nat.leb_le. reflexivity.
Defined.

(** X4 on the values that a padded form hands on. *)
Lemma formSchema_idempotent_witness :
  formSchema Sample.hello = inr Sample.hello.
Proof.
  apply (formSchema_idempotent Example.padded_hello Sample.hello).
  reflexivity.
Defined.

(** X5 on a form with both fields out of bounds. *)
Lemma errors_field_by_field_witness :
  prompt_error
    (mkFieldErrors (Some "Prompt is required")
       (Some "System message must be less than 500 characters")) =
    Some "Prompt is required" /\
  system_error
    (mkFieldErrors (Some "Prompt is required")
       (Some "System message must be less than 500 characters")) =
    Some "System message must be less than 500 characters".
Proof.
  apply (errors_field_by_field Example.both
           (mkFieldErrors (Some "Prompt is required")
              (Some "System message must be less than 500 characters"))).
  vm_compute. reflexivity.
Defined.

(** X6 on a network that is down. *)
Lemma network_failure_is_rendered_witness :
  response
    (replay Sample.idle
       (fst (onSubmit None (fun _ => Rejected (Error "Failed to fetch"))
               Sample.hello))) = "Error: Failed to fetch".
Proof.
  apply (proj1 (proj2
           (network_failure_is_rendered None
              (fun _ => Rejected (Error "Failed to fetch")) Sample.hello
              Sample.hello_request (Error "Failed to fetch") Sample.idle
              eq_refl eq_refl))).
Defined.

(** X7 on a success status with a body that is not JSON. *)
Lemma unreadable_body_is_rendered_witness :
  response
    (replay Sample.idle
       (fst (onSubmit None
               (always (Response.mk 200 (Fulfilled "<html>")
                          (Rejected (Error "Unexpected token <"))))
               Sample.hello))) = "Error: Unexpected token <".
Proof.
  apply (proj1
           (unreadable_body_is_rendered None
              (always (Response.mk 200 (Fulfilled "<html>")
                         (Rejected (Error "Unexpected token <"))))
              Sample.hello Sample.hello_request
              (Response.mk 200 (Fulfilled "<html>")
                 (Rejected (Error "Unexpected token <")))
              (Error "Unexpected token <") Sample.idle
              eq_refl eq_refl (or_introl (conj eq_refl eq_refl)))).
Defined.

(** X8 on the body [null]. *)
Lemma null_payload_is_an_error_witness :
  response
    (replay Sample.idle
       (fst (onSubmit None (always (answer 200 "null" JNull)) Sample.hello))) =
    "Error: Cannot read properties of null (reading 'final_response')".
Proof.
  exact (proj1
           (null_payload_is_an_error None (always (answer 200 "null" JNull))
              Sample.hello Sample.hello_request (answer 200 "null" JNull)
              Sample.idle eq_refl eq_refl eq_refl eq_refl)).
Defined.

(** X9 on a numeric [final_response] beside a good [response]. *)
Lemma non_string_field_is_an_error_witness :
  response
    (replay Sample.idle
       (fst (onSubmit None (always (answer 200 "" Example.numeric))
               Sample.hello))) =
    "Error: result.final_response.trim is not a function".
Proof.
  exact (proj1
           (proj1
              (non_string_field_is_an_error None
                 (always (answer 200 "" Example.numeric)) Sample.hello
                 Sample.hello_request (answer 200 "" Example.numeric)
                 Example.numeric Sample.idle eq_refl eq_refl eq_refl eq_refl)
              (JNumber 3%Z) eq_refl eq_refl
              (fun s H => eq_ind (JNumber 3%Z)
                            (fun v => match v with
                                      | JNumber _ => True
                                      | _ => False
                                      end) I (JString s) H))).
Defined.

(** X10 on a diagnosis. *)
Lemma success_needs_an_ok_answer_witness :
  exists req res payload,
    requests (fst (onSubmit None (always (answer 200 "" Sample.diagnosis))
                     Sample.hello)) = [req] /\
    always (answer 200 "" Sample.diagnosis) req = Fulfilled res /\
    Response.ok res = true /\
    Response.json res = Fulfilled payload.
Proof.
  apply (proj2
           (success_needs_an_ok_answer None
              (always (answer 200 "" Sample.diagnosis)) Sample.hello
              "Response received successfully" (or_introl eq_refl))).
Defined.

(** X11 on a server that never answers. *)
Lemma waiting_page_is_loading_witness :
  submit_label
    (view text no_errors
       (replay Sample.idle (fst (onSubmit None (fun _ => Pending) Sample.hello)))
       "") = "Processing...".
Proof.
  destruct (waiting_page_is_loading None (fun _ => Pending) Sample.hello
              text no_errors "" Sample.idle) as [Hnever Hloading].
  destruct (Hloading (Hnever Sample.hello_request eq_refl eq_refl))
    as [_ [_ [_ [_ [Hlabel _]]]]].
  exact Hlabel.
Defined.

(** X13 on a [final_response] of two blanks. *)
Lemma blank_final_response_shows_nothing_witness :
  notifications
    (fst (onSubmit None (always (answer 200 "" Example.hollow)) Sample.hello)) =
    [(true, "Response received successfully")] /\
  response
    (replay Sample.idle
       (fst (onSubmit None (always (answer 200 "" Example.hollow))
               Sample.hello))) = "" /\
  response_card
    (view text no_errors
       (replay Sample.idle
          (fst (onSubmit None (always (answer 200 "" Example.hollow))
                  Sample.hello))) "") = None.
Proof.
  apply (blank_final_response_shows_nothing None
           (always (answer 200 "" Example.hollow)) Sample.hello
           Sample.hello_request (answer 200 "" Example.hollow) Example.hollow
           "  " text no_errors "" Sample.idle
           eq_refl eq_refl eq_refl eq_refl eq_refl).
  - discriminate.
  - intros c Hin. rewrite (replicate_chars 2 " " c Hin). reflexivity.
Defined.

(** X14 on status 500. *)
Lemma failure_shows_an_error_card_witness :
  exists message,
    response
      (replay Sample.idle
         (fst (onSubmit None (always (answer 500 "server error" JNull))
                 Sample.hello))) = "Error: " ++ message /\
    response_card
      (view text no_errors
         (replay Sample.idle
            (fst (onSubmit None (always (answer 500 "server error" JNull))
                    Sample.hello))) "") = Some ("Error: " ++ message).
Proof.
  apply (failure_shows_an_error_card None
           (always (answer 500 "server error" JNull)) Sample.hello
           text no_errors "" Sample.idle).
  left. reflexivity.
Defined.

(** X15 on a padded form. *)
Lemma submitted_fields_are_trimmed_witness :
  requests
    (fst (onSubmit None (fun _ => Pending) Sample.hello)) =
    [Sample.hello_request].
Proof.
  apply (proj1
           (submitted_fields_are_trimmed None (fun _ => Pending)
              Example.padded_hello
              (onSubmit None (fun _ => Pending) Sample.hello) eq_refl)
           eq_refl).
Defined.

(** X16 on an image form with a hidden system message of 501 letters. *)
Lemma hidden_system_blocks_silently_witness :
  exists errors,
    submit (Some Sample.scan) (fun _ => Pending) Example.verbose Sample.idle =
      (errors, Sample.idle) /\
    system_error errors =
      Some "System message must be less than 500 characters" /\
    system_field (view image errors Sample.idle "") = false /\
    system_message (view image errors Sample.idle "") = None /\
    prompt_message (view image errors Sample.idle "") = None.
Proof.
  apply (hidden_system_blocks_silently (Some Sample.scan) (fun _ => Pending)
           Example.verbose "" Sample.idle).
  - reflexivity.
  - vm_compute. repeat split; repeat constructor.
  - apply Nat.ltb_lt. vm_compute. reflexivity.
Defined.

(** X17 on the prompt "Hello" typed into the form as first shown. *)
Lemma default_form_needs_a_prompt_witness :
  exists data,
    formSchema (mkFormData text "Hello" (system defaultValues) false) = inr data.
Proof.
  apply (proj2 (proj2 (default_form_needs_a_prompt text "Hello" false))).
  vm_compute. repeat split; repeat constructor.
Defined.

(** X18 on two changes and a late read. *)
Lemma selection_follows_last_change_witness :
  Picker.selectedImage
    (Picker.mk (Some Example.knee) (Example.named Example.chest)
       [Example.knee]) = Some Example.knee.
Proof.
  apply (selection_follows_last_change Example.named Picker.initial
           [Picker.Change (Some [Example.chest])] (Some [Example.knee])
           [Picker.Load 0]).
  - intros a [<- | []]. exists 0. reflexivity.
  - reflexivity.
Defined.

(** X19 on two files chosen in a row. *)
Lemma late_read_overtakes_witness :
  exists st',
    Picker.run Example.named Picker.initial
      [Picker.Change (Some [Example.chest]); Picker.Change (Some [Example.knee]);
       Picker.Load 1; Picker.Load 0] = Some st' /\
    Picker.imagePreview st' = "data:chest.png" /\
    Picker.selectedImage st' = Some Example.knee /\
    requests (fst (onSubmit (Picker.selectedImage st') (fun _ => Pending)
                     Sample.picture)) =
      [mkRequest "/predict/chained_image" "POST"
         [("accept", "application/json")]
         (BodyFormData [("prompt", EntryString "Describe");
                        ("image", EntryFile Example.knee)])].
Proof.
  apply (proj1
           (late_read_overtakes Example.named Picker.initial
              Example.chest [] Example.knee [] None (fun _ => Pending)
              Sample.picture eq_refl eq_refl eq_refl)).
Defined.

(** X20 on a file chosen, removed, and another chosen. *)
Lemma quiet_picks_stay_in_step_witness :
  exists st',
    Picker.run Example.named Picker.initial
      (concat (map Picker.pick
                 [Some [Example.chest]; None; Some [Example.knee]])) = Some st' /\
    Picker.reading st' = [] /\
    Picker.in_step Example.named st'.
Proof.
  apply (quiet_picks_stay_in_step Example.named
           [Some [Example.chest]; None; Some [Example.knee]] Picker.initial);
    reflexivity.
Defined.

(** X21 on two submissions of the same fields in either chaining. *)
Lemma text_body_determines_fields_witness :
  prompt Sample.hello = prompt (mkFormData text "Hello" "Sys" true) /\
  system Sample.hello = system (mkFormData text "Hello" "Sys" true).
Proof.
  apply (text_body_determines_fields None (fun _ => Pending)
           Sample.hello (mkFormData text "Hello" "Sys" true)
           Sample.hello_request
           (mkRequest "/predict/chained_text" "POST"
              [("accept", "application/json");
               ("Content-Type", "application/json")]
              (body Sample.hello_request)));
    reflexivity.
Defined.
